(** * check_vcenter: a shallow embedding of the vCenter monitoring plugin

    The plugin (check_vcenter.py) opens a vCenter API session, fetches one
    inventory listing (virtual machines, hosts or datastores), classifies it
    and terminates through [exit_plugin], which prints one line and exits
    with the Nagios return code.

    Python integers are modelled by [Z], strings by [string], the floats of
    the datastore usage by IEEE 754 binary64 values ([spec_float] at
    precision 53), dictionaries with a fixed set of keys by records, and
    the effects of the program (HTTP requests, standard output, [sys.exit],
    uncaught exceptions) by a state monad over a [World]. *)

From Stdlib Require Import ZArith List String Ascii Bool Lia Permutation.
From Stdlib Require Import Floats.SpecFloat DecimalString.
Import ListNotations.

Open Scope string_scope.
Open Scope Z_scope.

(* ================================================================== *)
(** ** Python builtins used by the plugin *)

(** [x in [a, b, ...]] on integers. *)
Definition py_in (x : Z) (l : list Z) : bool := existsb (Z.eqb x) l.

(** [str(n)] for an integer. *)
Definition str_of_int (n : Z) : string := NilZero.string_of_int (Z.to_int n).

(** [len(l)]. *)
Definition len {A : Type} (l : list A) : Z := Z.of_nat (List.length l).

(** [sep.join(l)]. *)
Definition join (sep : string) (l : list string) : string := String.concat sep l.

(** [s.strip(c)] for a one-character argument: every leading and trailing
    occurrence of [c] is removed. *)
Fixpoint lstrip_chars (c : ascii) (l : list ascii) : list ascii :=
  match l with
  | [] => []
  | a :: l' => if Ascii.eqb a c then lstrip_chars c l' else l
  end.

Definition strip (c : ascii) (s : string) : string :=
  let l := lstrip_chars c (list_ascii_of_string s) in
  string_of_list_ascii (rev (lstrip_chars c (rev l))).

(** The double quote character, the argument of [req.text.strip]. *)
Definition dquote : ascii := ascii_of_nat 34.

(** A [dict] with string keys and values, in insertion order;
    [dict_update d k v] is [d.update({k: v})]. *)
Definition dict := list (string * string).

Fixpoint dict_update (d : dict) (k v : string) : dict :=
  match d with
  | [] => [(k, v)]
  | (k', v') :: d' =>
      if String.eqb k' k then (k, v) :: d' else (k', v') :: dict_update d' k v
  end.

(* ================================================================== *)
(** ** Severity and its combinator *)

(** The Nagios return codes. *)
Inductive Severity := OK | WARNING | CRITICAL | UNKNOWN.

Definition code (s : Severity) : Z :=
  match s with OK => 0 | WARNING => 1 | CRITICAL => 2 | UNKNOWN => 3 end.

(** [set_state(newstate, state)], lines 163-175. *)
Definition set_state (newstate state : Z) : Z :=
  if (newstate =? 2) || (state =? 2) then 2
  else if (newstate =? 1) && negb (py_in state [2]) then 1
  else if (newstate =? 3) && negb (py_in state [1; 2]) then 3
  else 0.

Definition Severity_eqb (a b : Severity) : bool := code a =? code b.

(** The precedence table of the specification, section 4.1, rule by rule. *)
Definition combine (new current : Severity) : Severity :=
  if Severity_eqb new CRITICAL || Severity_eqb current CRITICAL then CRITICAL
  else if Severity_eqb new WARNING && negb (Severity_eqb current CRITICAL)
  then WARNING
  else if Severity_eqb new UNKNOWN
          && negb (Severity_eqb current WARNING || Severity_eqb current CRITICAL)
  then UNKNOWN
  else OK.

(** The triples on which the two bracketings of [set_state] differ. *)
Definition unknown_onto_warning (a b c : Severity) : bool :=
  Severity_eqb a UNKNOWN && Severity_eqb c WARNING
  && (Severity_eqb b OK || Severity_eqb b UNKNOWN).

(* ================================================================== *)
(** ** Effects: requests, standard output, exit and exceptions *)

(** One call of [requests.request]. *)
Record Request := mkRequest {
  req_method : string;
  req_url : string;
  req_headers : dict;
  req_timeout : Z;
  req_verify : string;
  req_auth : option (string * string)
}.

(** What the call produces: a connection-level exception (with its text,
    [str(err)]) or a response with [status_code] and [text]. *)
Inductive Reply :=
| ConnectionFailure (err : string)
| Response (status_code : Z) (text : string).

(** Exceptions that no handler of the plugin catches. *)
Inductive Exn :=
| ZeroDivisionError
| OverflowError
| JSONDecodeError
| UnboundLocalError
| AttributeError.

(** How a piece of the program ends: it returns a value, calls
    [sys.exit(code)], or raises an exception that is not caught. *)
Inductive Outcome (A : Type) :=
| Ret (a : A)
| Exit (code : Z)
| Raise (e : Exn).

Arguments Ret {A} a.
Arguments Exit {A} code.
Arguments Raise {A} e.

(** The observable history of a run: the requests issued, oldest first,
    and the lines printed. *)
Record World := mkWorld {
  requests : list Request;
  stdout : list string
}.

Definition initial : World := mkWorld [] [].

Definition M (A : Type) : Type := World -> Outcome A * World.

Definition ret {A : Type} (a : A) : M A := fun w => (Ret a, w).

Definition bind {A B : Type} (m : M A) (k : A -> M B) : M B :=
  fun w =>
    match m w with
    | (Ret a, w') => k a w'
    | (Exit c, w') => (Exit c, w')
    | (Raise e, w') => (Raise e, w')
    end.

Declare Scope py_scope.
Delimit Scope py_scope with py.
Notation "x <- m ;; k" := (bind m (fun x => k))
  (at level 61, m at next level, right associativity) : py_scope.
Notation "m ;; k" := (bind m (fun _ => k))
  (at level 61, right associativity) : py_scope.
Open Scope py_scope.

Definition print (line : string) : M unit :=
  fun w => (Ret tt, mkWorld (requests w) (stdout w ++ [line])%list).

Definition sys_exit {A : Type} (c : Z) : M A := fun w => (Exit c, w).

Definition raise {A : Type} (e : Exn) : M A := fun w => (Raise e, w).

Definition when (b : bool) (m : M unit) : M unit := if b then m else ret tt.

(** A pure computation that may raise, run inside [M]. *)
Definition lift {A : Type} (o : Outcome A) : M A := fun w => (o, w).

(** The exit status of the process: [sys.exit(c)] gives [c], a normal end
    gives 0 and a traceback gives 1. *)
Definition exit_status {A : Type} (o : Outcome A) : Z :=
  match o with
  | Ret _ => 0
  | Exit c => c
  | Raise _ => 1
  end.

(** [exit_plugin(returncode, output, perfdata)], lines 147-160. *)
Definition exit_plugin (returncode : Z) (output perfdata : string) : M unit :=
  when (returncode =? 3)
    (print ("UNKNOWN - " ++ output) ;; sys_exit 3) ;;
  when (returncode =? 2)
    (print ("CRITICAL - " ++ output ++ perfdata) ;; sys_exit 2) ;;
  if returncode =? 1 then
    print ("WARNING - " ++ output ++ perfdata) ;; sys_exit 1
  else if returncode =? 0 then
    print ("OK - " ++ output ++ perfdata) ;; sys_exit 0
  else ret tt.

(* ================================================================== *)
(** ** The API session *)

(** The parsed command line ([get_args]). *)
Record Args := mkArguments {
  arg_mode : string;
  arg_user : string;
  arg_pw : string;
  arg_baseurl : string;
  arg_timeout : Z;
  arg_cacert : string;
  arg_debug : bool
}.

(** The attributes of a [VCenterAPISession]. The private [__authtoken] is
    set only on the success path of [__init__]. *)
Record VCenterAPISession := mkSession {
  baseurl : string;
  cacert : string;
  timeout : Z;
  debug : bool;
  authtoken : option string
}.

Definition form_encoded : dict :=
  [("Content-Type", "application/x-www-form-urlencoded")].

Section Session.

(** The network: the reply to a request, given the requests issued before
    it in this run. *)
Variable transport : list Request -> Request -> Reply.

(** [requests.request(...)]. *)
Definition request (r : Request) : M Reply :=
  fun w => (Ret (transport (requests w) r),
            mkWorld (requests w ++ [r])%list (stdout w)).

(** Reading [self.__authtoken]. *)
Definition get_authtoken (self : VCenterAPISession) : M string :=
  match authtoken self with
  | Some t => ret t
  | None => raise AttributeError
  end.

(** The [try: req = request(...) except (...) as err: exit_plugin(3, ...)]
    block shared by the three methods; after the handler [req] is unbound. *)
Definition try_request (r : Request) : M (Z * string) :=
  reply <- request r ;;
  match reply with
  | ConnectionFailure err =>
      exit_plugin 3 ("Connection error: " ++ err) "" ;;
      raise UnboundLocalError
  | Response status_code text => ret (status_code, text)
  end.

(** [VCenterAPISession.__init__(args)], lines 25-56. *)
Definition VCenterAPISession_init (args : Args) : M VCenterAPISession :=
  let self := mkSession (arg_baseurl args) (arg_cacert args)
                        (arg_timeout args) (arg_debug args) None in
  let headers := form_encoded in
  req <- try_request
           (mkRequest "POST" (baseurl self ++ "/api/session") headers
                      (timeout self) (cacert self)
                      (Some (arg_user args, arg_pw args))) ;;
  let (status_code, text) := req in
  if py_in status_code [200; 201] then
    ret (mkSession (baseurl self) (cacert self) (timeout self) (debug self)
                   (Some (strip dquote text)))
  else
    exit_plugin 3
      ("Error during API auth request: "
       ++ "HTTP status " ++ str_of_int status_code ++ " : " ++ text) "" ;;
    ret self.

(** [destroy(self)], lines 58-82. *)
Definition destroy (self : VCenterAPISession) : M unit :=
  token <- get_authtoken self ;;
  let headers := [("vmware-api-session-id", token);
                  ("Content-Type", "application/x-www-form-urlencoded")] in
  req <- try_request
           (mkRequest "DELETE" (baseurl self ++ "/api/session") headers
                      (timeout self) (cacert self) None) ;;
  let (status_code, text) := req in
  when (negb (py_in status_code [200; 201; 204]))
    (exit_plugin 3
       ("Error during token invalidation request: "
        ++ "HTTP status " ++ str_of_int status_code ++ " : " ++ text) "").

(** [query_api_endpoint(self, method, endpoint, headers=None)], lines
    84-111. [loads] is the decoder behind [req.json()]: [None] when the
    body is not JSON of the expected shape. *)
Definition query_api_endpoint {J : Type} (loads : string -> option J)
    (self : VCenterAPISession) (method endpoint : string)
    (headers : option dict) : M J :=
  let headers := match headers with
                 | None => form_encoded
                 | Some h => h
                 end in
  token <- get_authtoken self ;;
  let headers := dict_update headers "vmware-api-session-id" token in
  req <- try_request
           (mkRequest method (baseurl self ++ endpoint) headers
                      (timeout self) (cacert self) None) ;;
  let (status_code, text) := req in
  when (py_in status_code [400; 401; 403; 500; 503])
    (exit_plugin 3
       ("Error during API request to /api/vcenter/vm : "
        ++ "HTTP status " ++ str_of_int status_code ++ " : " ++ text) "") ;;
  match loads text with
  | Some data => ret data
  | None => raise JSONDecodeError
  end.

End Session.

(* ================================================================== *)
(** ** Inventory items *)

(** A decoded record of [/api/vcenter/vm]; only [power_state] is read. *)
Module Vm.
Record t := mk { power_state : string }.
End Vm.

(** A decoded record of [/api/vcenter/host]. *)
Module Host.
Record t := mk {
  name : string;
  power_state : string;
  connection_state : string
}.
End Host.

(** A decoded record of [/api/vcenter/datastore]; sizes are integers. *)
Module Datastore.
Record t := mk {
  name : string;
  capacity : Z;
  free_space : Z
}.
End Datastore.

(* ================================================================== *)
(** ** The VM classifier *)

(** The dictionary [states] of [check_vms]. *)
Module VmStates.
Record t := mk { total : Z; on : Z; off : Z; suspended : Z }.
End VmStates.

(** One turn of the loop of lines 197-204: three independent tests. *)
Definition vms_step (states : VmStates.t) (element : Vm.t) : VmStates.t :=
  let states :=
    if String.eqb (Vm.power_state element) "POWERED_ON"
    then VmStates.mk (VmStates.total states) (VmStates.on states + 1)
                     (VmStates.off states) (VmStates.suspended states)
    else states in
  let states :=
    if String.eqb (Vm.power_state element) "POWERED_OFF"
    then VmStates.mk (VmStates.total states) (VmStates.on states)
                     (VmStates.off states + 1) (VmStates.suspended states)
    else states in
  if String.eqb (Vm.power_state element) "SUSPENDED"
  then VmStates.mk (VmStates.total states) (VmStates.on states)
                   (VmStates.off states) (VmStates.suspended states + 1)
  else states.

(** Lines 191-204: the counters after the loop. *)
Definition vms_states (data : list Vm.t) : VmStates.t :=
  fold_left vms_step data (VmStates.mk (len data) 0 0 0).

(** Lines 207-210. *)
Definition vms_perfdata (states : VmStates.t) : string :=
  " | 'vm_on'=" ++ str_of_int (VmStates.on states)
    ++ ";;;0;" ++ str_of_int (VmStates.total states) ++ " "
  ++ "'vm_off'=" ++ str_of_int (VmStates.off states)
    ++ ";;;0;" ++ str_of_int (VmStates.total states) ++ " "
  ++ "'vm_suspended'=" ++ str_of_int (VmStates.suspended states)
    ++ ";;;0;" ++ str_of_int (VmStates.total states) ++ " "
  ++ "'vm_total'=" ++ str_of_int (VmStates.total states) ++ ";;;;".

(** Lines 213-214. *)
Definition vms_output (states : VmStates.t) : string :=
  "Total VMs: " ++ str_of_int (VmStates.total states)
  ++ ", On: " ++ str_of_int (VmStates.on states) ++ ", "
  ++ "Off: " ++ str_of_int (VmStates.off states)
  ++ ", Suspended: " ++ str_of_int (VmStates.suspended states).

(** Lines 191-216 of [check_vms]: everything after the session is
    destroyed. *)
Definition classify_vms (data : list Vm.t) : M unit :=
  let states := vms_states data in
  let perfdata := vms_perfdata states in
  let output := vms_output states in
  exit_plugin 0 output perfdata.

(* ================================================================== *)
(** ** The host classifier *)

(** The dictionary [power_state] of [check_hosts]. *)
Module PowerState.
Record t := mk {
  on : Z;
  off : Z;
  standby : Z;
  hosts_off_list : list string;
  hosts_standby_list : list string;
  hosts_off : string;
  hosts_standby : string
}.
End PowerState.

(** The dictionary [connection_state] of [check_hosts]. *)
Module ConnectionState.
Record t := mk {
  connected : Z;
  disconnected : Z;
  notresponding : Z;
  hosts_discon_list : list string;
  hosts_notresp_list : list string;
  hosts_discon : string;
  hosts_notresp : string
}.
End ConnectionState.

(** The variables the loop of [check_hosts] updates. *)
Record HostsVars := mkHostsVars {
  power_state : PowerState.t;
  connection_state : ConnectionState.t;
  state : Z
}.

(** Lines 256-263: the power-state tests of one element. *)
Definition power_step (p : PowerState.t) (element : Host.t) : PowerState.t :=
  let '(PowerState.mk n_on n_off n_standby l_off l_standby s_off s_standby) := p in
  if String.eqb (Host.power_state element) "POWERED_ON" then
    PowerState.mk (n_on + 1) n_off n_standby l_off l_standby s_off s_standby
  else if String.eqb (Host.power_state element) "POWERED_OFF" then
    PowerState.mk n_on (n_off + 1) n_standby
                  (l_off ++ [Host.name element])%list l_standby s_off s_standby
  else if String.eqb (Host.power_state element) "STANDBY" then
    PowerState.mk n_on n_off (n_standby + 1)
                  l_off (l_standby ++ [Host.name element])%list s_off s_standby
  else p.

(** Lines 244-263: one turn of the loop. The NOT_RESPONDING branch ends
    with [continue], so the power-state tests are not reached. *)
Definition hosts_step (v : HostsVars) (element : Host.t) : HostsVars :=
  let '(ConnectionState.mk n_conn n_discon n_notresp l_discon l_notresp
                           s_discon s_notresp) := connection_state v in
  if String.eqb (Host.connection_state element) "CONNECTED" then
    mkHostsVars
      (power_step (power_state v) element)
      (ConnectionState.mk (n_conn + 1) n_discon n_notresp l_discon l_notresp
                          s_discon s_notresp)
      (state v)
  else if String.eqb (Host.connection_state element) "DISCONNECTED" then
    mkHostsVars
      (power_step (power_state v) element)
      (ConnectionState.mk n_conn (n_discon + 1) n_notresp
                          (l_discon ++ [Host.name element])%list l_notresp
                          s_discon s_notresp)
      (state v)
  else if String.eqb (Host.connection_state element) "NOT_RESPONDING" then
    mkHostsVars
      (power_state v)
      (ConnectionState.mk n_conn n_discon (n_notresp + 1)
                          l_discon (l_notresp ++ [Host.name element])%list
                          s_discon s_notresp)
      (set_state 1 (state v))
  else
    mkHostsVars (power_step (power_state v) element) (connection_state v)
                (state v).

(** Lines 233-242: the variables before the loop. *)
Definition hosts_init : HostsVars :=
  mkHostsVars (PowerState.mk 0 0 0 [] [] "" "")
              (ConnectionState.mk 0 0 0 [] [] "" "")
              0.

(** Lines 244-263: the loop. *)
Definition hosts_loop (data : list Host.t) : HostsVars :=
  fold_left hosts_step data hosts_init.

(** Lines 266-276: [f' ({", ".join(l)})'] when [l] is not empty. *)
Definition impacted (l : list string) (default : string) : string :=
  if 0 <? len l then " (" ++ join ", " l ++ ")" else default.

Definition hosts_strings (v : HostsVars) : HostsVars :=
  let '(PowerState.mk n_on n_off n_standby l_off l_standby s_off s_standby) :=
    power_state v in
  let '(ConnectionState.mk n_conn n_discon n_notresp l_discon l_notresp
                           s_discon s_notresp) := connection_state v in
  mkHostsVars
    (PowerState.mk n_on n_off n_standby l_off l_standby
                   (impacted l_off s_off) (impacted l_standby s_standby))
    (ConnectionState.mk n_conn n_discon n_notresp l_discon l_notresp
                        (impacted l_discon s_discon)
                        (impacted l_notresp s_notresp))
    (state v).

(** Lines 278-286. *)
Definition hosts_output (total : Z) (v : HostsVars) : string :=
  " " ++ str_of_int total ++ " Hosts total - "
  ++ "Power On: " ++ str_of_int (PowerState.on (power_state v)) ++ ", "
  ++ "Off: " ++ str_of_int (PowerState.off (power_state v))
    ++ PowerState.hosts_off (power_state v) ++ ", "
  ++ "Standby: " ++ str_of_int (PowerState.standby (power_state v))
    ++ PowerState.hosts_standby (power_state v)
  ++ " - Connected: "
    ++ str_of_int (ConnectionState.connected (connection_state v)) ++ ", "
  ++ "Disconnected: "
    ++ str_of_int (ConnectionState.disconnected (connection_state v))
  ++ ConnectionState.hosts_discon (connection_state v) ++ ", "
  ++ "Not responding: "
    ++ str_of_int (ConnectionState.notresponding (connection_state v))
  ++ ConnectionState.hosts_notresp (connection_state v).

(** Lines 288-293. *)
Definition hosts_perfdata (total : Z) (v : HostsVars) : string :=
  " | 'power_on'=" ++ str_of_int (PowerState.on (power_state v))
    ++ ";;;0;" ++ str_of_int total
  ++ " 'power_off'=" ++ str_of_int (PowerState.off (power_state v))
    ++ ";;;0;" ++ str_of_int total
  ++ " 'power_standby'=" ++ str_of_int (PowerState.standby (power_state v))
    ++ ";;;0;" ++ str_of_int total
  ++ " 'conn_connected'="
    ++ str_of_int (ConnectionState.connected (connection_state v))
    ++ ";;;0;" ++ str_of_int total
  ++ " 'conn_disconnected'="
    ++ str_of_int (ConnectionState.disconnected (connection_state v))
    ++ ";;;0;" ++ str_of_int total
  ++ " 'conn_notresp'="
    ++ str_of_int (ConnectionState.notresponding (connection_state v))
    ++ ";;;0;" ++ str_of_int total.

(** Lines 232-295 of [check_hosts]: everything after the session is
    destroyed. *)
Definition classify_hosts (data : list Host.t) : M unit :=
  let total := len data in
  let v := hosts_strings (hosts_loop data) in
  exit_plugin (state v) (hosts_output total v) (hosts_perfdata total v).

(* ================================================================== *)
(** ** Python floats: IEEE 754 binary64 *)

Definition prec : Z := 53.
Definition emax : Z := 1024.

Definition float := spec_float.

(** An integer as an exact (not yet rounded) operand. *)
Definition operand (s : bool) (n : Z) : float :=
  match n with
  | Zpos p => S754_finite s p 0
  | Zneg p => S754_finite (negb s) p 0
  | Z0 => S754_zero s
  end.

(** [float(n)], rounded to nearest, ties to even. *)
Definition float_of_int (n : Z) : float :=
  binary_normalize prec emax n 0 false.

(** [a / b] on integers: the quotient correctly rounded to binary64;
    ZeroDivisionError for a zero divisor, OverflowError when the rounded
    quotient is not finite. *)
Definition int_truediv (a b : Z) : Outcome float :=
  if b =? 0 then Raise ZeroDivisionError
  else
    match SFdiv prec emax (operand false a) (operand false b) with
    | S754_infinity _ => Raise OverflowError
    | q => Ret q
    end.

(** [x * n] for a float [x] and an integer constant [n]. *)
Definition float_mul_int (x : float) (n : Z) : float :=
  SFmul prec emax x (float_of_int n).

(** [x >= n] for a float [x] and an integer constant [n]. *)
Definition float_ge_int (x : float) (n : Z) : bool :=
  SFleb (float_of_int n) x.

(** The integer nearest to [n / d] for [0 <= n] and [0 < d], ties to
    even. *)
Definition div_half_even (n d : Z) : Z :=
  let q := n / d in
  match (2 * (n mod d)) ?= d with
  | Lt => q
  | Gt => q + 1
  | Eq => if Z.even q then q else q + 1
  end.

(** [round(x, 2)]: the exact value of [x] is rounded to the nearest
    multiple of 1/100 (ties to even) and the result to the nearest float.
    Zeros, infinities and nan round to themselves; the sign is kept. *)
Definition round2 (x : float) : float :=
  match x with
  | S754_finite s m e =>
      let hundredths :=
        if 0 <=? e then Zpos m * 2 ^ e * 100
        else div_half_even (Zpos m * 100) (2 ^ (- e)) in
      SFdiv prec emax (operand s hundredths) (operand false 100)
  | _ => x
  end.

(** *** [str(x)] for a float: the shortest decimal that reads back as [x] *)

(** The exact value of the finite float [m * 2^e] and the half-widths of
    its rounding interval, as numerators over a common denominator:
    (value, below, above, denominator). The interval is narrower below a
    power of two. *)
Definition rounding_interval (m : positive) (e : Z) : Z * Z * Z * Z :=
  let pow2 := (Zpos m =? 2 ^ (prec - 1)) && (3 - emax - prec <? e) in
  let u := if 0 <=? e then 2 ^ e else 1 in
  let d := if 0 <=? e then 4 else 4 * 2 ^ (- e) in
  (4 * Zpos m * u, (if pow2 then u else 2 * u), 2 * u, d).

(** [in_interval m e c p] tells whether the decimal [c * 10^p] rounds to
    the float [m * 2^e]; the bounds are included when [m] is even. *)
Definition scaled (v d p : Z) : Z * Z :=
  if 0 <=? p then (v, d * 10 ^ p) else (v * 10 ^ (- p), d).

Definition in_interval (m : positive) (e c p : Z) : bool :=
  let '(v, below, above, d) := rounding_interval m e in
  let '(lo, dl) := scaled (v - below) d p in
  let '(hi, _) := scaled (v + above) d p in
  if Z.even (Zpos m)
  then (lo <=? c * dl) && (c * dl <=? hi)
  else (lo <? c * dl) && (c * dl <? hi).

(** The least [n] from [n0] upwards with [v / d < 10^n]. *)
Fixpoint decimal_exponent (fuel : nat) (v d n : Z) : Z :=
  match fuel with
  | O => n
  | S fuel' =>
      let '(a, b) := scaled v d n in
      if a <? b then n else decimal_exponent fuel' v d (n + 1)
  end.

(** The candidates with [k] significant digits: the two multiples of
    [10^p] around the value, [p = n - k]; the nearer one that rounds back
    is taken, the even one on a tie. *)
Definition candidate (m : positive) (e n k : Z) : option (Z * Z) :=
  let '(v, _, _, d) := rounding_interval m e in
  let p := n - k in
  let '(a, b) := scaled v d p in
  let c := a / b in
  let r := a mod b in
  let down := in_interval m e c p in
  let up := in_interval m e (c + 1) p in
  match down, up with
  | false, false => None
  | true, false => Some (c, p)
  | false, true => Some (c + 1, p)
  | true, true =>
      match (2 * r) ?= b with
      | Lt => Some (c, p)
      | Gt => Some (c + 1, p)
      | Eq => if Z.even c then Some (c, p) else Some (c + 1, p)
      end
  end.

Fixpoint shortest (fuel : nat) (m : positive) (e n k : Z) : Z * Z :=
  match fuel with
  | O => (Zpos m, e)
  | S fuel' =>
      match candidate m e n k with
      | Some cp => cp
      | None => shortest fuel' m e n (k + 1)
      end
  end.

(** Trailing zeros of the digits go to the exponent. *)
Fixpoint strip_zeros (fuel : nat) (c p : Z) : Z * Z :=
  match fuel with
  | O => (c, p)
  | S fuel' =>
      if (c mod 10 =? 0) && negb (c =? 0)
      then strip_zeros fuel' (c / 10) (p + 1)
      else (c, p)
  end.

(** The digits of the shortest decimal and the position of its decimal
    point, counted from the first digit. *)
Definition shortest_digits (m : positive) (e : Z) : string * Z :=
  let '(v, _, _, d) := rounding_interval m e in
  let n := decimal_exponent 700 v d (-330) in
  let '(c, p) := shortest 17 m e n 1 in
  let '(c, p) := strip_zeros 400 c p in
  let digits := str_of_int c in
  (digits, Z.of_nat (String.length digits) + p).

Definition zeros (n : Z) : string :=
  string_of_list_ascii (repeat "0"%char (Z.to_nat n)).

(** The layout of [repr]: exponent notation when the decimal point is
    more than 16 places right or 4 or more places left of the first
    digit, positional notation with at least one fractional digit
    otherwise. *)
Definition repr_layout (digits : string) (decpt : Z) : string :=
  let n := Z.of_nat (String.length digits) in
  if (decpt <=? -4) || (16 <? decpt) then
    let x := decpt - 1 in
    let mantissa :=
      if 1 <? n
      then String.substring 0 1 digits ++ "."
           ++ String.substring 1 (String.length digits - 1) digits
      else digits in
    let exponent := str_of_int (Z.abs x) in
    mantissa ++ "e" ++ (if x <? 0 then "-" else "+")
    ++ (if Z.abs x <? 10 then "0" else "") ++ exponent
  else if decpt <=? 0 then
    "0." ++ zeros (- decpt) ++ digits
  else if n <=? decpt then
    digits ++ zeros (decpt - n) ++ ".0"
  else
    String.substring 0 (Z.to_nat decpt) digits ++ "."
    ++ String.substring (Z.to_nat decpt) (Z.to_nat (n - decpt)) digits.

(** [str(x)], as an f-string formats a float. *)
Definition str_of_float (x : float) : string :=
  match x with
  | S754_nan => "nan"
  | S754_infinity s => if s then "-inf" else "inf"
  | S754_zero s => if s then "-0.0" else "0.0"
  | S754_finite s m e =>
      let '(digits, decpt) := shortest_digits m e in
      (if s then "-" else "") ++ repr_layout digits decpt
  end.

(* ================================================================== *)
(** ** The datastore classifier *)

(** The variables the loop of [check_datastores] updates. *)
Record DatastoresVars := mkDatastoresVars {
  ds_state : Z;
  ds_output : string;
  ds_perfdata : string
}.

(** Lines 320-321: the usage of one datastore in percent. The division is
    not guarded. *)
Definition used_pct (element : Datastore.t) : Outcome float :=
  let used_bytes := Datastore.capacity element - Datastore.free_space element in
  match int_truediv used_bytes (Datastore.capacity element) with
  | Ret q => Ret (round2 (float_mul_int q 100))
  | Exit c => Exit c
  | Raise e => Raise e
  end.

(** Lines 316-328: one turn of the loop. *)
Definition datastores_step (v : DatastoresVars) (element : Datastore.t)
  : M DatastoresVars :=
  pct <- lift (used_pct element) ;;
  let v :=
    if float_ge_int pct 97 then
      mkDatastoresVars
        (set_state 1 (ds_state v))
        (ds_output v ++ ", " ++ Datastore.name element ++ ": "
         ++ str_of_float pct ++ "%")
        (ds_perfdata v)
    else v in
  ret (mkDatastoresVars
         (ds_state v) (ds_output v)
         (ds_perfdata v ++ "'" ++ Datastore.name element ++ "'="
          ++ str_of_float pct ++ "%;;;0;100 ")).

Fixpoint datastores_loop (data : list Datastore.t) (v : DatastoresVars)
  : M DatastoresVars :=
  match data with
  | [] => ret v
  | element :: rest =>
      v' <- datastores_step v element ;;
      datastores_loop rest v'
  end.

(** Lines 311-314: the variables before the loop. *)
Definition datastores_init (data : list Datastore.t) : DatastoresVars :=
  mkDatastoresVars 0 ("Total datastores: " ++ str_of_int (len data)) " | ".

(** Lines 311-331 of [check_datastores]: everything after the session is
    destroyed. *)
Definition classify_datastores (data : list Datastore.t) : M unit :=
  v <- datastores_loop data (datastores_init data) ;;
  exit_plugin (ds_state v) (ds_output v) (ds_perfdata v).

(* ================================================================== *)
(** ** The three checks and the main program *)

Section Plugin.

Variable transport : list Request -> Request -> Reply.

(** The decoder behind [req.json()] for each listing, and [json.dumps]
    of the decoded listing (printed in debug mode only). *)
Variable loads_vms : string -> option (list Vm.t).
Variable loads_hosts : string -> option (list Host.t).
Variable loads_datastores : string -> option (list Datastore.t).
Variable dumps_vms : list Vm.t -> string.
Variable dumps_hosts : list Host.t -> string.
Variable dumps_datastores : list Datastore.t -> string.

(** [check_vms(session)], lines 178-216. *)
Definition check_vms (session : VCenterAPISession) : M unit :=
  data <- query_api_endpoint transport loads_vms session
            "GET" "/api/vcenter/vm" None ;;
  when (debug session) (print (dumps_vms data)) ;;
  destroy transport session ;;
  classify_vms data.

(** [check_hosts(session)], lines 219-295. *)
Definition check_hosts (session : VCenterAPISession) : M unit :=
  data <- query_api_endpoint transport loads_hosts session
            "GET" "/api/vcenter/host" None ;;
  when (debug session) (print (dumps_hosts data)) ;;
  destroy transport session ;;
  classify_hosts data.

(** [check_datastores(session)], lines 298-331. *)
Definition check_datastores (session : VCenterAPISession) : M unit :=
  data <- query_api_endpoint transport loads_datastores session
            "GET" "/api/vcenter/datastore" None ;;
  when (debug session) (print (dumps_datastores data)) ;;
  destroy transport session ;;
  classify_datastores data.

(** [main()], lines 334-351, after [get_args]. *)
Definition main (args : Args) : M unit :=
  session <- VCenterAPISession_init transport args ;;
  if String.eqb (arg_mode args) "vms" then check_vms session
  else if String.eqb (arg_mode args) "hosts" then check_hosts session
  else if String.eqb (arg_mode args) "datastores" then check_datastores session
  else ret tt.

End Plugin.

(** The request that opens the session. *)
Definition auth_request (args : Args) : Request :=
  mkRequest "POST" (arg_baseurl args ++ "/api/session") form_encoded
            (arg_timeout args) (arg_cacert args)
            (Some (arg_user args, arg_pw args)).

(** The datastore items of the data model: a positive capacity and a free
    space between 0 and the capacity. *)
Definition well_formed (element : Datastore.t) : Prop :=
  0 < Datastore.capacity element
  /\ 0 <= Datastore.free_space element <= Datastore.capacity element.

(** Whether a datastore is reported: its usage is computed and is 97 or
    more. *)
Definition breaches (element : Datastore.t) : bool :=
  match used_pct element with
  | Ret pct => float_ge_int pct 97
  | _ => false
  end.

(** The usage of a datastore as the plugin prints it. *)
Definition pct_text (element : Datastore.t) : string :=
  match used_pct element with
  | Ret pct => str_of_float pct
  | _ => ""
  end.

(* ================================================================== *)
(** ** Vocabulary of the statements *)

(** One perfdata token, ['label'=value;;;min;max]. *)
Definition perf_token (label value lo hi : string) : string :=
  "'" ++ label ++ "'=" ++ value ++ ";;;" ++ lo ++ ";" ++ hi.

(** The number of VMs whose [power_state] is [s]. *)
Definition count_power (s : string) (data : list Vm.t) : Z :=
  len (filter (fun element => String.eqb (Vm.power_state element) s) data).

Definition not_responding (element : Host.t) : bool :=
  String.eqb (Host.connection_state element) "NOT_RESPONDING".

(** The hosts that reach the power-state tests and have power state [s]. *)
Definition powered (s : string) (data : list Host.t) : list Host.t :=
  filter (fun element =>
            negb (not_responding element)
            && String.eqb (Host.power_state element) s) data.

(** A test as a count, and as the list of the names it selects. *)
Definition flag (b : bool) : Z := if b then 1 else 0.

Definition named (b : bool) (element : Host.t) : list string :=
  if b then [Host.name element] else [].

(** The concatenation of a list of strings. *)
Definition cat (l : list string) : string := fold_right String.append "" l.

(** The float a decimal literal [n/d] denotes: the quotient correctly
    rounded, as in [96.9 = 969/10]. *)
Definition literal (n d : Z) : float :=
  SFdiv prec emax (operand false n) (operand false d).

(** The mantissa of a shift record is not negative and has at most [d]
    binary digits. *)
Definition fits (mrs : shr_record) (d : Z) : Prop :=
  0 <= shr_m mrs /\ Zdigits2 (shr_m mrs) <= d.

(** What a breaching datastore adds to the summary. *)
Definition breach_text (element : Datastore.t) : string :=
  if breaches element
  then ", " ++ Datastore.name element ++ ": " ++ pct_text element ++ "%"
  else "".

(** The perfdata token of a datastore, with the blank that follows it. *)
Definition usage_token (element : Datastore.t) : string :=
  perf_token (Datastore.name element) (pct_text element ++ "%") "0" "100"
  ++ " ".

(** The request [query_api_endpoint] issues. *)
Definition query_request (self : VCenterAPISession) (token method endpoint : string)
    (headers : option dict) : Request :=
  mkRequest method (baseurl self ++ endpoint)
    (dict_update (match headers with None => form_encoded | Some h => h end)
                 "vmware-api-session-id" token)
    (timeout self) (cacert self) None.

(** The line of a fatal exit of [query_api_endpoint]. *)
Definition api_error_line (status_code : Z) (text : string) : string :=
  "UNKNOWN - Error during API request to /api/vcenter/vm : HTTP status "
  ++ str_of_int status_code ++ " : " ++ text.

(** A world after one more request, and after one more printed line. *)
Definition sent (r : Request) (w : World) : World :=
  mkWorld (requests w ++ [r])%list (stdout w).

Definition printed (line : string) (w : World) : World :=
  mkWorld (requests w) (stdout w ++ [line])%list.

(** [req.json()] applied to a body. *)
Definition decoded {J : Type} (loads : string -> option J) (text : string)
  : Outcome J :=
  match loads text with
  | Some data => Ret data
  | None => Raise JSONDecodeError
  end.

(** *** A sample run, for the concrete instances of the statements *)

Definition sample_args : Args :=
  mkArguments "hosts" "monitor" "secret" "https://vcenter.example" 10
              "/etc/ssl/certs/ca-bundle.crt" false.

Definition sample_session : VCenterAPISession :=
  mkSession "https://vcenter.example" "/etc/ssl/certs/ca-bundle.crt" 10 false
            (Some "token").

(** A network on which nothing can be reached. *)
Definition unreachable (_ : list Request) (_ : Request) : Reply :=
  ConnectionFailure "timed out".

(** A network that answers every request with the same status and body. *)
Definition answering (status_code : Z) (text : string)
    (_ : list Request) (_ : Request) : Reply :=
  Response status_code text.

(** Two datastores, at and just below the threshold, and a listing with
    a datastore of capacity 0 behind a well-formed one. *)
Definition sample_datastores : list Datastore.t :=
  [Datastore.mk "ds1" 1000 30; Datastore.mk "ds2" 1000 31].

Definition sample_empty_datastore : list Datastore.t :=
  [Datastore.mk "ds1" 1000 30; Datastore.mk "ds0" 0 0].

(** A vCenter that grants a session, answers the query with an empty
    listing and accepts the deletion of the session. *)
Definition healthy (_ : list Request) (r : Request) : Reply :=
  if String.eqb (req_method r) "POST"
  then Response 200 (String dquote ("token" ++ String dquote ""))
  else if String.eqb (req_method r) "GET" then Response 200 "[]"
  else Response 204 "".

(** A decoder that accepts only the empty listing. *)
Definition loads_empty {A : Type} (text : string) : option (list A) :=
  if String.eqb text "[]" then Some [] else None.

(** *** Vocabulary of the further properties *)

(** The word [exit_plugin] prints for a return code. *)
Definition level (c : Z) : string :=
  if c =? 0 then "OK"
  else if c =? 1 then "WARNING"
  else if c =? 2 then "CRITICAL"
  else "UNKNOWN".

(** The lines of the fatal exits of the session. *)
Definition connection_error_line (err : string) : string :=
  "UNKNOWN - Connection error: " ++ err.

Definition auth_error_line (status_code : Z) (text : string) : string :=
  "UNKNOWN - Error during API auth request: HTTP status "
  ++ str_of_int status_code ++ " : " ++ text.

Definition teardown_error_line (status_code : Z) (text : string) : string :=
  "UNKNOWN - Error during token invalidation request: HTTP status "
  ++ str_of_int status_code ++ " : " ++ text.

(** The request [destroy] issues. *)
Definition destroy_request (self : VCenterAPISession) (token : string)
  : Request :=
  mkRequest "DELETE" (baseurl self ++ "/api/session")
    [("vmware-api-session-id", token);
     ("Content-Type", "application/x-www-form-urlencoded")]
    (timeout self) (cacert self) None.

(** The session [__init__] builds from the body of an accepted
    authentication response. *)
Definition opened (args : Args) (text : string) : VCenterAPISession :=
  mkSession (arg_baseurl args) (arg_cacert args) (arg_timeout args)
            (arg_debug args) (Some (strip dquote text)).

(** [d.get(k)] for a dictionary: the value of the entry with key [k]. *)
Fixpoint dict_get (d : dict) (k : string) : option string :=
  match d with
  | [] => None
  | (k', v) :: d' => if String.eqb k' k then Some v else dict_get d' k
  end.

(** The keys of a dictionary, in insertion order. *)
Definition dict_keys (d : dict) : list string := map fst d.

(** The common shape of [check_vms], [check_hosts] and
    [check_datastores]: fetch, dump in debug mode, destroy, classify. *)
Definition run_check {J : Type}
    (transport : list Request -> Request -> Reply)
    (loads : string -> option J) (dumps : J -> string)
    (classify : J -> M unit) (endpoint : string)
    (session : VCenterAPISession) : M unit :=
  data <- query_api_endpoint transport loads session "GET" endpoint None ;;
  when (debug session) (print (dumps data)) ;;
  destroy transport session ;;
  classify data.

(** A classification that ends the run by itself: it exits with OK or
    WARNING after printing one line that starts with that word, or the
    division raises without anything printed; either way whatever the
    world. *)
Definition reports (m : M unit) : Prop :=
  (exists c rest, (c = 0 \/ c = 1)
     /\ forall w, m w = (Exit c, printed (level c ++ " - " ++ rest) w))
  \/ (exists e, (e = ZeroDivisionError \/ e = OverflowError)
        /\ forall w, m w = (Raise e, w)).

(** The endpoint a mode queries. *)
Definition endpoint_of (mode : string) : option string :=
  if String.eqb mode "vms" then Some "/api/vcenter/vm"
  else if String.eqb mode "hosts" then Some "/api/vcenter/host"
  else if String.eqb mode "datastores" then Some "/api/vcenter/datastore"
  else None.

(** The arguments with another debug flag. *)
Definition with_debug (b : bool) (args : Args) : Args :=
  mkArguments (arg_mode args) (arg_user args) (arg_pw args)
              (arg_baseurl args) (arg_timeout args) (arg_cacert args) b.

(** Whether a string neither starts nor ends with the character [c]. *)
Definition starts_with (c : ascii) (l : list ascii) : bool :=
  match l with
  | a :: _ => Ascii.eqb a c
  | [] => false
  end.

Definition bare (c : ascii) (s : string) : bool :=
  negb (starts_with c (list_ascii_of_string s))
  && negb (starts_with c (rev (list_ascii_of_string s))).

(** A string between two double quotes, as the API returns a token. *)
Definition quoted (s : string) : string :=
  String dquote (s ++ String dquote "").

(** The name of the header that carries the session token. *)
Definition session_header : string := "vmware-api-session-id".

(** The dump of the decoded body of a fetch, for the mode of the run:
    [None] when the body does not decode (or the mode is none of the
    three). *)
Definition fetched_dump
    (loads_vms : string -> option (list Vm.t))
    (loads_hosts : string -> option (list Host.t))
    (loads_datastores : string -> option (list Datastore.t))
    (dumps_vms : list Vm.t -> string)
    (dumps_hosts : list Host.t -> string)
    (dumps_datastores : list Datastore.t -> string)
    (mode text : string) : option string :=
  if String.eqb mode "vms" then option_map dumps_vms (loads_vms text)
  else if String.eqb mode "hosts" then option_map dumps_hosts (loads_hosts text)
  else if String.eqb mode "datastores"
  then option_map dumps_datastores (loads_datastores text)
  else None.

(** How a run ends, as far as a monitoring system sees it: the exit of
    [exit_plugin] comes with one line that starts with the word of the
    exit code; an exception comes with no line. *)
Definition verdict (o : Outcome unit) (lines : list string) : Prop :=
  match o with
  | Exit c =>
      (c = 0 \/ c = 1 \/ c = 3)
      /\ exists rest, lines = [level c ++ " - " ++ rest]
  | Raise e =>
      lines = []
      /\ (e = JSONDecodeError \/ e = ZeroDivisionError \/ e = OverflowError)
  | Ret _ => False
  end.

(** A vCenter with one reply per kind of request. *)
Definition scripted (auth fetch teardown : Reply)
    (_ : list Request) (r : Request) : Reply :=
  if String.eqb (req_method r) "POST" then auth
  else if String.eqb (req_method r) "GET" then fetch
  else teardown.

Definition granted : Reply := Response 200 (quoted "token").

(** Whether the power state of a VM is one of the three the classifier
    counts. *)
Definition counted_power (element : Vm.t) : bool :=
  String.eqb (Vm.power_state element) "POWERED_ON"
  || String.eqb (Vm.power_state element) "POWERED_OFF"
  || String.eqb (Vm.power_state element) "SUSPENDED".

(** The hosts with a given connection state. *)
Definition connection (s : string) (data : list Host.t) : list Host.t :=
  filter (fun element => String.eqb (Host.connection_state element) s) data.

(** A list of names as the host summary shows it: nothing for an empty
    list, otherwise the names between parentheses after a blank. *)
Definition names (l : list string) : string :=
  match l with
  | [] => ""
  | _ => " (" ++ join ", " l ++ ")"
  end.

(* ================================================================== *)
(** * Properties *)

(** ** Strings and the monad *)

Lemma append_assoc (a b c : string) : (a ++ b) ++ c = a ++ b ++ c.
Proof. induction a as [|x a IH]; simpl; [reflexivity | now rewrite IH]. Qed.

Lemma append_nil_r (a : string) : a ++ "" = a.
Proof. induction a as [|x a IH]; simpl; [reflexivity | now rewrite IH]. Qed.

Lemma exit_plugin_known (c : Z) (level output perfdata : string) (w : World) :
  (c = 0 /\ level = "OK" \/ c = 1 /\ level = "WARNING") ->
  exit_plugin c output perfdata w
  = (Exit c, printed (level ++ " - " ++ output ++ perfdata) w).
Proof. intros [[-> ->] | [-> ->]]; reflexivity. Qed.

(** ** The severity combinator *)

(** C1. On the four severities [set_state] is the precedence table of
    section 4.1, its rules tried in order: CRITICAL when either argument
    is CRITICAL; else WARNING when the new one is WARNING; else UNKNOWN
    when the new one is UNKNOWN and the current one is neither WARNING nor
    CRITICAL; else OK. *)
Theorem set_state_precedence_table (new current : Severity) :
  set_state (code new) (code current) = code (combine new current).
Proof. destruct new, current; reflexivity. Qed.

(** C2. The code at the input of the claim: UNKNOWN combined onto WARNING
    falls through to the last branch and comes out as OK, not WARNING. *)
Lemma set_state_unknown_onto_warning :
  set_state (code UNKNOWN) (code WARNING) = code OK.
Proof. reflexivity. Qed.

(** C3, as stated, fails: with new = UNKNOWN twice onto WARNING the two
    bracketings give UNKNOWN and OK. *)
Lemma set_state_not_associative :
  set_state 3 (set_state 3 1) <> set_state (set_state 3 3) 1.
Proof. vm_compute. discriminate. Qed.

(** ** The VM classifier *)

Lemma len_cons {A : Type} (a : A) (l : list A) : len (a :: l) = len l + 1.
Proof. unfold len. simpl List.length. lia. Qed.

Lemma count_power_cons (s : string) (element : Vm.t) (data : list Vm.t) :
  count_power s (element :: data)
  = count_power s data + (if String.eqb (Vm.power_state element) s then 1 else 0).
Proof.
  unfold count_power. simpl filter.
  destruct (String.eqb (Vm.power_state element) s).
  - apply len_cons.
  - lia.
Qed.

Lemma vms_loop_counts (data : list Vm.t) (t a b c : Z) :
  fold_left vms_step data (VmStates.mk t a b c)
  = VmStates.mk t (a + count_power "POWERED_ON" data)
                  (b + count_power "POWERED_OFF" data)
                  (c + count_power "SUSPENDED" data).
Proof.
  revert a b c. induction data as [|element data IH]; intros a b c.
  - simpl. unfold count_power. simpl. now rewrite !Z.add_0_r.
  - simpl fold_left. rewrite !count_power_cons. unfold vms_step.
    destruct (String.eqb (Vm.power_state element) "POWERED_ON");
      destruct (String.eqb (Vm.power_state element) "POWERED_OFF");
      destruct (String.eqb (Vm.power_state element) "SUSPENDED");
      cbn [VmStates.total VmStates.on VmStates.off VmStates.suspended];
      rewrite IH; f_equal; lia.
Qed.

(** C9. For every listing the VM classifier exits with severity OK; its
    counters are the length of the listing and the numbers of items whose
    power state is POWERED_ON, POWERED_OFF and SUSPENDED; the line it
    prints is the summary "Total VMs: .., On: .., Off: .., Suspended: .."
    followed by four perfdata tokens separated by blanks, the first three
    bounded by 0 and the total, the last with empty bounds. *)
Theorem classify_vms_counts (data : list Vm.t) (w : World) :
  let total := len data in
  let n_on := count_power "POWERED_ON" data in
  let n_off := count_power "POWERED_OFF" data in
  let n_suspended := count_power "SUSPENDED" data in
  vms_states data = VmStates.mk total n_on n_off n_suspended
  /\ vms_output (vms_states data)
     = "Total VMs: " ++ str_of_int total ++ ", On: " ++ str_of_int n_on
       ++ ", Off: " ++ str_of_int n_off
       ++ ", Suspended: " ++ str_of_int n_suspended
  /\ vms_perfdata (vms_states data)
     = " | " ++ join " "
         [perf_token "vm_on" (str_of_int n_on) "0" (str_of_int total);
          perf_token "vm_off" (str_of_int n_off) "0" (str_of_int total);
          perf_token "vm_suspended" (str_of_int n_suspended) "0"
                     (str_of_int total);
          perf_token "vm_total" (str_of_int total) "" ""]
  /\ classify_vms data w
     = (Exit 0,
        printed ("OK - " ++ vms_output (vms_states data)
                 ++ vms_perfdata (vms_states data)) w).
Proof.
  intros total n_on n_off n_suspended.
  assert (E : vms_states data = VmStates.mk total n_on n_off n_suspended).
  { unfold vms_states. rewrite vms_loop_counts. reflexivity. }
  split; [exact E|]. unfold classify_vms. rewrite E.
  split; [reflexivity|]. split.
  - unfold vms_perfdata, join, perf_token, String.concat.
    cbn [VmStates.total VmStates.on VmStates.off VmStates.suspended].
    generalize (str_of_int total) (str_of_int n_on) (str_of_int n_off)
               (str_of_int n_suspended).
    intros s1 s2 s3 s4. cbn.
    repeat (rewrite append_assoc; cbn). reflexivity.
  - reflexivity.
Qed.

(** ** The host classifier *)

(** The effect of the power-state tests on each field. *)
Lemma power_step_fields (p : PowerState.t) (element : Host.t) :
  let s := Host.power_state element in
  power_step p element
  = PowerState.mk
      (PowerState.on p + flag (String.eqb s "POWERED_ON"))
      (PowerState.off p + flag (String.eqb s "POWERED_OFF"))
      (PowerState.standby p + flag (String.eqb s "STANDBY"))
      (PowerState.hosts_off_list p
       ++ named (String.eqb s "POWERED_OFF") element)%list
      (PowerState.hosts_standby_list p
       ++ named (String.eqb s "STANDBY") element)%list
      (PowerState.hosts_off p) (PowerState.hosts_standby p).
Proof.
  destruct p as [a b c lo ls so ss]. unfold power_step. cbn -[String.eqb].
  destruct (String.eqb_spec (Host.power_state element) "POWERED_ON") as [E|_].
  - rewrite E. cbn. now rewrite !Z.add_0_r, !app_nil_r.
  - destruct (String.eqb_spec (Host.power_state element) "POWERED_OFF") as [E|_].
    + rewrite E. cbn. now rewrite !Z.add_0_r, !app_nil_r.
    + destruct (String.eqb (Host.power_state element) "STANDBY");
        cbn; now rewrite !Z.add_0_r, !app_nil_r.
Qed.

(** A host that does not respond: counted, named, WARNING, and no
    power-state test. *)
Lemma hosts_step_not_responding (v : HostsVars) (element : Host.t) :
  not_responding element = true ->
  hosts_step v element
  = mkHostsVars
      (power_state v)
      (let c := connection_state v in
       ConnectionState.mk
         (ConnectionState.connected c) (ConnectionState.disconnected c)
         (ConnectionState.notresponding c + 1)
         (ConnectionState.hosts_discon_list c)
         (ConnectionState.hosts_notresp_list c ++ [Host.name element])%list
         (ConnectionState.hosts_discon c) (ConnectionState.hosts_notresp c))
      (set_state 1 (state v)).
Proof.
  unfold not_responding, hosts_step. intros H.
  apply String.eqb_eq in H. rewrite H.
  destruct (connection_state v). reflexivity.
Qed.

(** Any other host: the severity and the not-responding record are left
    alone and the power-state tests run. *)
Lemma hosts_step_responding (v : HostsVars) (element : Host.t) :
  not_responding element = false ->
  let v' := hosts_step v element in
  state v' = state v
  /\ power_state v' = power_step (power_state v) element
  /\ ConnectionState.notresponding (connection_state v')
     = ConnectionState.notresponding (connection_state v)
  /\ ConnectionState.hosts_notresp_list (connection_state v')
     = ConnectionState.hosts_notresp_list (connection_state v).
Proof.
  unfold not_responding, hosts_step. intros H. rewrite H.
  destruct (connection_state v) eqn:E.
  destruct (String.eqb (Host.connection_state element) "CONNECTED");
    [|destruct (String.eqb (Host.connection_state element) "DISCONNECTED")];
    cbn; rewrite ?E; repeat split; reflexivity.
Qed.

Lemma set_state_warning (s : Z) : s = 0 \/ s = 1 -> set_state 1 s = 1.
Proof. intros [-> | ->]; reflexivity. Qed.

Lemma hosts_loop_snoc (pre : list Host.t) (element : Host.t) :
  hosts_loop (pre ++ [element]) = hosts_step (hosts_loop pre) element.
Proof. unfold hosts_loop. now rewrite fold_left_app. Qed.

(** The loop from any variables whose severity is OK or WARNING. *)
Lemma hosts_loop_from (data : list Host.t) (v : HostsVars) :
  state v = 0 \/ state v = 1 ->
  let r := fold_left hosts_step data v in
  let p := power_state v in
  let c := connection_state v in
  state r = (if existsb not_responding data then 1 else state v)
  /\ PowerState.on (power_state r)
     = PowerState.on p + len (powered "POWERED_ON" data)
  /\ PowerState.off (power_state r)
     = PowerState.off p + len (powered "POWERED_OFF" data)
  /\ PowerState.standby (power_state r)
     = PowerState.standby p + len (powered "STANDBY" data)
  /\ PowerState.hosts_off_list (power_state r)
     = (PowerState.hosts_off_list p
        ++ map Host.name (powered "POWERED_OFF" data))%list
  /\ PowerState.hosts_standby_list (power_state r)
     = (PowerState.hosts_standby_list p
        ++ map Host.name (powered "STANDBY" data))%list
  /\ ConnectionState.notresponding (connection_state r)
     = ConnectionState.notresponding c + len (filter not_responding data)
  /\ ConnectionState.hosts_notresp_list (connection_state r)
     = (ConnectionState.hosts_notresp_list c
        ++ map Host.name (filter not_responding data))%list.
Proof.
  revert v. induction data as [|element data IH]; intros v Hs.
  - cbn. rewrite !Z.add_0_r, !app_nil_r. repeat split; reflexivity.
  - cbn zeta. simpl fold_left.
    destruct (not_responding element) eqn:N.
    + pose proof (hosts_step_not_responding v element N) as S.
      specialize (IH (hosts_step v element)).
      rewrite S in IH |- *. cbn [state power_state connection_state] in IH |- *.
      rewrite (set_state_warning _ Hs) in IH |- *.
      specialize (IH (or_intror eq_refl)). cbn zeta in IH.
      destruct IH as (I1 & I2 & I3 & I4 & I5 & I6 & I7 & I8).
      cbn [ConnectionState.notresponding ConnectionState.hosts_notresp_list]
        in I7, I8.
      unfold powered in *. simpl existsb. simpl filter. rewrite N.
      cbn [negb andb map]. rewrite len_cons.
      rewrite I1, I2, I3, I4, I5, I6, I7, I8, <- app_assoc.
      destruct (existsb not_responding data); repeat split; try reflexivity; lia.
    + destruct (hosts_step_responding v element N) as (S1 & S2 & S3 & S4).
      specialize (IH (hosts_step v element)). rewrite S1 in IH.
      specialize (IH Hs). cbn zeta in IH.
      destruct IH as (I1 & I2 & I3 & I4 & I5 & I6 & I7 & I8).
      rewrite S2 in I2, I3, I4, I5, I6. rewrite S3 in I7. rewrite S4 in I8.
      rewrite power_step_fields in I2, I3, I4, I5, I6.
      cbn [PowerState.on PowerState.off PowerState.standby
           PowerState.hosts_off_list PowerState.hosts_standby_list]
        in I2, I3, I4, I5, I6.
      unfold powered in *. simpl existsb. simpl filter. rewrite N.
      cbn [negb andb orb].
      rewrite I1, I2, I3, I4, I5, I6, I7, I8.
      destruct (String.eqb (Host.power_state element) "POWERED_ON");
        destruct (String.eqb (Host.power_state element) "POWERED_OFF");
        destruct (String.eqb (Host.power_state element) "STANDBY");
        cbn [flag named map]; rewrite ?len_cons, <- ?app_assoc, ?app_nil_r;
        repeat split; try reflexivity; lia.
Qed.

(** C4. While the host classifier scans a listing, an item whose
    connection state is NOT_RESPONDING adds one to the not-responding
    counter, appends its name to the not-responding list, raises the
    running severity to WARNING through [set_state] and leaves every
    power-state counter and list as they were; any other item leaves the
    severity alone and goes through the power-state tests. At the end the
    severity is WARNING when some item is NOT_RESPONDING and OK otherwise,
    whatever the power states, and the power-state counters count only the
    items that respond. *)
Theorem hosts_not_responding
    (pre : list Host.t) (element : Host.t) (post : list Host.t) (w : World) :
  let data := (pre ++ element :: post)%list in
  let before := hosts_loop pre in
  let after := hosts_loop (pre ++ [element]) in
  let final := hosts_loop data in
  (if not_responding element then
     ConnectionState.notresponding (connection_state after)
     = ConnectionState.notresponding (connection_state before) + 1
     /\ ConnectionState.hosts_notresp_list (connection_state after)
        = (ConnectionState.hosts_notresp_list (connection_state before)
           ++ [Host.name element])%list
     /\ state after = set_state (code WARNING) (state before)
     /\ state after = code WARNING
     /\ power_state after = power_state before
     /\ state final = code WARNING
   else
     state after = state before
     /\ power_state after = power_step (power_state before) element
     /\ ConnectionState.notresponding (connection_state after)
        = ConnectionState.notresponding (connection_state before)
     /\ ConnectionState.hosts_notresp_list (connection_state after)
        = ConnectionState.hosts_notresp_list (connection_state before))
  /\ state final = (if existsb not_responding data then code WARNING else code OK)
  /\ PowerState.on (power_state final) = len (powered "POWERED_ON" data)
  /\ PowerState.off (power_state final) = len (powered "POWERED_OFF" data)
  /\ PowerState.standby (power_state final) = len (powered "STANDBY" data)
  /\ PowerState.hosts_off_list (power_state final)
     = map Host.name (powered "POWERED_OFF" data)
  /\ PowerState.hosts_standby_list (power_state final)
     = map Host.name (powered "STANDBY" data)
  /\ ConnectionState.notresponding (connection_state final)
     = len (filter not_responding data)
  /\ ConnectionState.hosts_notresp_list (connection_state final)
     = map Host.name (filter not_responding data)
  /\ classify_hosts data w
     = (Exit (state final),
        printed ((if existsb not_responding data then "WARNING" else "OK")
                 ++ " - " ++ hosts_output (len data) (hosts_strings final)
                 ++ hosts_perfdata (len data) (hosts_strings final)) w).
Proof.
  intros data before after final.
  assert (B : state before = 0 \/ state before = 1).
  { destruct (hosts_loop_from pre hosts_init (or_introl eq_refl)) as (B & _).
    fold (hosts_loop pre) in B. fold before in B. rewrite B.
    destruct (existsb not_responding pre); auto. }
  destruct (hosts_loop_from data hosts_init (or_introl eq_refl))
    as (F1 & F2 & F3 & F4 & F5 & F6 & F7 & F8).
  fold (hosts_loop data) in F1, F2, F3, F4, F5, F6, F7, F8.
  fold final in F1, F2, F3, F4, F5, F6, F7, F8.
  cbn in F1, F2, F3, F4, F5, F6, F7, F8.
  assert (A : after = hosts_step before element) by apply hosts_loop_snoc.
  split; [|repeat split; try assumption].
  - destruct (not_responding element) eqn:N.
    + rewrite A, (hosts_step_not_responding _ _ N).
      cbn [state power_state connection_state ConnectionState.notresponding
           ConnectionState.hosts_notresp_list code].
      rewrite (set_state_warning _ B). repeat split.
      rewrite F1. unfold data. rewrite existsb_app. simpl existsb.
      rewrite N. now rewrite orb_true_r.
    + rewrite A. exact (hosts_step_responding before element N).
  - unfold classify_hosts. cbn zeta.
    assert (S : state (hosts_strings final) = state final).
    { unfold hosts_strings. destruct (power_state final), (connection_state final).
      reflexivity. }
    fold final. rewrite S, F1.
    destruct (existsb not_responding data).
    + apply exit_plugin_known. right. split; reflexivity.
    + apply exit_plugin_known. left. split; reflexivity.
Qed.

(** ** The API session *)

Lemma py_in_In (x : Z) (l : list Z) : py_in x l = true <-> In x l.
Proof.
  unfold py_in. rewrite existsb_exists. split.
  - intros (y & Hy & E). apply Z.eqb_eq in E. now subst.
  - intros H. exists x. split; [exact H | apply Z.eqb_refl].
Qed.

(** What [query_api_endpoint] does once the reply is a response. *)
Lemma query_api_endpoint_run {J : Type}
    (transport : list Request -> Request -> Reply)
    (loads : string -> option J) (self : VCenterAPISession)
    (token method endpoint : string) (headers : option dict) (w : World)
    (status_code : Z) (text : string) :
  authtoken self = Some token ->
  transport (requests w) (query_request self token method endpoint headers)
  = Response status_code text ->
  query_api_endpoint transport loads self method endpoint headers w
  = if py_in status_code [400; 401; 403; 500; 503]
    then (Exit 3,
          printed (api_error_line status_code text)
                  (sent (query_request self token method endpoint headers) w))
    else (decoded loads text,
          sent (query_request self token method endpoint headers) w).
Proof.
  intros Ht Hr.
  unfold query_api_endpoint, get_authtoken, try_request, request, bind.
  rewrite Ht. unfold ret at 1. fold (query_request self token method endpoint headers).
  rewrite Hr. unfold ret at 1.
  destruct (py_in status_code [400; 401; 403; 500; 503]).
  - reflexivity.
  - unfold when, ret, decoded, raise, sent. destruct (loads text); reflexivity.
Qed.

(** C7. Once the transport has delivered a response, [query_api_endpoint]
    exits with UNKNOWN (code 3, the line carrying status and body) exactly
    when the status is one of 400, 401, 403, 500, 503; for every other
    status the outcome is that of decoding the body, with no further look
    at the status. *)
Theorem query_api_endpoint_status {J : Type}
    (transport : list Request -> Request -> Reply)
    (loads : string -> option J) (self : VCenterAPISession)
    (token method endpoint : string) (headers : option dict) (w : World)
    (status_code : Z) (text : string) :
  authtoken self = Some token ->
  transport (requests w) (query_request self token method endpoint headers)
  = Response status_code text ->
  let r := query_request self token method endpoint headers in
  let result :=
    query_api_endpoint transport loads self method endpoint headers w in
  (In status_code [400; 401; 403; 500; 503] ->
   result = (Exit 3, printed (api_error_line status_code text) (sent r w)))
  /\ (~ In status_code [400; 401; 403; 500; 503] ->
      result = (decoded loads text, sent r w))
  /\ (fst result = Exit 3 <-> In status_code [400; 401; 403; 500; 503]).
Proof.
  intros Ht Hr r result.
  pose proof (query_api_endpoint_run transport loads self token method endpoint
                headers w status_code text Ht Hr) as E.
  fold r in E. fold result in E.
  pose proof (py_in_In status_code [400; 401; 403; 500; 503]) as I.
  destruct (py_in status_code [400; 401; 403; 500; 503]).
  - rewrite E. repeat split; try reflexivity.
    + intros N. exfalso. apply N, I. reflexivity.
    + intros _. apply I. reflexivity.
  - rewrite E. repeat split.
    + intros H. apply I in H. discriminate H.
    + unfold decoded. cbn [fst]. destruct (loads text); discriminate.
    + intros H. apply I in H. discriminate H.
Qed.

Lemma query_api_endpoint_status_witness :
  query_api_endpoint (answering 404 "[]") (@loads_empty Vm.t) sample_session
                     "GET" "/api/vcenter/vm" None initial
  = (Ret [],
     sent (query_request sample_session "token" "GET" "/api/vcenter/vm" None)
          initial).
Proof.
  refine (proj1 (proj2 (query_api_endpoint_status
            (answering 404 "[]") (@loads_empty Vm.t) sample_session
            "token" "GET" "/api/vcenter/vm" None initial 404 "[]"
            eq_refl eq_refl)) _).
  vm_compute. intuition discriminate.
Defined.

(** C10. Whatever endpoint is queried, when the status is one of 400, 401,
    403, 500, 503 the line printed names "/api/vcenter/vm". *)
Theorem query_api_endpoint_error_names_vm {J : Type}
    (transport : list Request -> Request -> Reply)
    (loads : string -> option J) (self : VCenterAPISession)
    (token method endpoint : string) (headers : option dict) (w : World)
    (status_code : Z) (text : string) :
  authtoken self = Some token ->
  transport (requests w) (query_request self token method endpoint headers)
  = Response status_code text ->
  In status_code [400; 401; 403; 500; 503] ->
  let result :=
    query_api_endpoint transport loads self method endpoint headers w in
  fst result = Exit 3
  /\ stdout (snd result)
     = (stdout w
        ++ [("UNKNOWN - Error during API request to /api/vcenter/vm : "
             ++ "HTTP status " ++ str_of_int status_code ++ " : "
             ++ text)%string])%list.
Proof.
  intros Ht Hr Hs result. unfold result.
  rewrite (query_api_endpoint_run transport loads self token method endpoint
             headers w status_code text Ht Hr).
  apply py_in_In in Hs. rewrite Hs. split; reflexivity.
Qed.

Lemma query_api_endpoint_error_names_vm_witness :
  stdout (snd (query_api_endpoint (answering 503 "down") (@loads_empty Host.t)
                 sample_session "GET" "/api/vcenter/host" None initial))
  = ["UNKNOWN - Error during API request to /api/vcenter/vm : "
     ++ "HTTP status 503 : down"].
Proof.
  refine (proj2 (query_api_endpoint_error_names_vm
            (answering 503 "down") (@loads_empty Host.t) sample_session
            "token" "GET" "/api/vcenter/host" None initial 503 "down"
            eq_refl eq_refl _)).
  vm_compute. tauto.
Defined.

(** C8. When the transport fails during the authentication request, that
    request is the only one ever issued (no data fetch, no teardown), the
    process exits with code 3, and the only output is one line that starts
    with "UNKNOWN - " and ends with the text of the cause; no perfdata
    follows. *)
Theorem auth_transport_failure
    (transport : list Request -> Request -> Reply)
    (loads_vms : string -> option (list Vm.t))
    (loads_hosts : string -> option (list Host.t))
    (loads_datastores : string -> option (list Datastore.t))
    (dumps_vms : list Vm.t -> string)
    (dumps_hosts : list Host.t -> string)
    (dumps_datastores : list Datastore.t -> string)
    (args : Args) (cause : string) :
  transport [] (auth_request args) = ConnectionFailure cause ->
  let run := main transport loads_vms loads_hosts loads_datastores
                  dumps_vms dumps_hosts dumps_datastores args initial in
  run = (Exit 3,
         mkWorld [auth_request args]
                 ["UNKNOWN - " ++ "Connection error: " ++ cause])
  /\ exit_status (fst run) = 3.
Proof.
  intros H run.
  assert (E : run = (Exit 3,
                     mkWorld [auth_request args]
                             ["UNKNOWN - " ++ "Connection error: " ++ cause])).
  { unfold run, main, VCenterAPISession_init, try_request, request, bind.
    cbn [requests initial baseurl cacert timeout].
    fold (auth_request args). rewrite H. reflexivity. }
  split; [exact E | now rewrite E].
Qed.

Lemma auth_transport_failure_witness :
  main unreachable loads_empty loads_empty loads_empty
       (fun _ => "") (fun _ => "") (fun _ => "") sample_args initial
  = (Exit 3,
     mkWorld [auth_request sample_args]
             ["UNKNOWN - Connection error: timed out"]).
Proof.
  exact (proj1 (auth_transport_failure unreachable loads_empty loads_empty
                  loads_empty (fun _ => "") (fun _ => "") (fun _ => "")
                  sample_args "timed out" eq_refl)).
Defined.

(** ** Binary64 arithmetic: the quotient of the usage is finite *)

(** The lemmas below follow a quotient through [SFdiv]: the digits of the
    integer quotient, the two shifts of [binary_round_aux] and the final
    test against the largest exponent. *)

Lemma digits2_pos_size (p : positive) : digits2_pos p = Pos.size p.
Proof. induction p as [p IH|p IH|]; simpl; now rewrite ?IH. Qed.

Lemma Zdigits2_nonneg (m : Z) : 0 <= Zdigits2 m.
Proof. destruct m; simpl; lia. Qed.

Lemma Zdigits2_le (m k : Z) : 0 <= m < 2 ^ k -> 0 <= k -> Zdigits2 m <= k.
Proof.
  intros [H0 H1] Hk. destruct m as [|p|p]; simpl; try lia.
  rewrite digits2_pos_size.
  pose proof (Pos.size_le p) as L.
  apply Pos2Z.pos_le_pos in L. rewrite Pos2Z.inj_pow in L.
  assert (2 ^ Zpos (Pos.size p) < 2 ^ (k + 1)).
  { replace (k + 1) with (Z.succ k) by lia. rewrite Z.pow_succ_r by lia. lia. }
  apply Z.pow_lt_mono_r_iff in H; lia.
Qed.

Lemma Zdigits2_gt (m : Z) : 0 <= m -> m < 2 ^ Zdigits2 m.
Proof.
  intros H. destruct m as [|p|p]; simpl; try lia.
  rewrite digits2_pos_size. pose proof (Pos.size_gt p) as G.
  apply Pos2Z.pos_lt_pos in G. now rewrite Pos2Z.inj_pow in G.
Qed.

Lemma Zdigits2_succ (m : Z) : 0 <= m -> Zdigits2 (m + 1) <= Zdigits2 m + 1.
Proof.
  intros H. pose proof (Zdigits2_gt m H) as G. pose proof (Zdigits2_nonneg m).
  apply Zdigits2_le; [|lia].
  replace (Zdigits2 m + 1) with (Z.succ (Zdigits2 m)) by lia.
  rewrite Z.pow_succ_r by lia. lia.
Qed.

Lemma shr_1_fits (mrs : shr_record) (d : Z) :
  fits mrs d -> fits (shr_1 mrs) (Z.max 0 (d - 1)).
Proof.
  unfold fits. destruct mrs as [m r s]. cbn [shr_m shr_1].
  intros [H0 H1]. destruct m as [|[p|p|]|p]; cbn in *; lia.
Qed.

Lemma iter_shr_1_fits (p : positive) (mrs : shr_record) (d : Z) :
  fits mrs d -> fits (iter_pos shr_1 p mrs) (Z.max 0 (d - Zpos p)).
Proof.
  revert mrs d. induction p as [p IH|p IH|]; intros mrs d H; cbn [iter_pos].
  - apply shr_1_fits, IH, IH in H. destruct H as [H0 H1]. split; [exact H0|]. lia.
  - apply IH, IH in H. destruct H as [H0 H1]. split; [exact H0|]. lia.
  - apply shr_1_fits in H. exact H.
Qed.

Lemma shr_record_of_loc_m (m : Z) (l : location) : shr_m (shr_record_of_loc m l) = m.
Proof. destruct l as [|[]]; reflexivity. Qed.

Lemma shr_fexp_fits (m e : Z) (l : location) :
  0 <= m ->
  let '(mrs, e') := shr_fexp prec emax m e l in
  e' = Z.max e (fexp prec emax (Zdigits2 m + e))
  /\ 0 <= shr_m mrs
  /\ Zdigits2 (shr_m mrs) + e' <= Z.max e' (Zdigits2 m + e).
Proof.
  intros H. unfold shr_fexp, shr.
  destruct (fexp prec emax (Zdigits2 m + e) - e) as [|n|n] eqn:E.
  - rewrite shr_record_of_loc_m. lia.
  - assert (F : fits (shr_record_of_loc m l) (Zdigits2 m)).
    { unfold fits. rewrite shr_record_of_loc_m. lia. }
    apply (iter_shr_1_fits n) in F. destruct F as [F0 F1].
    repeat split; try lia.
  - rewrite shr_record_of_loc_m. lia.
Qed.

Lemma round_nearest_even_bounds (m : Z) (l : location) :
  m <= round_nearest_even m l <= m + 1.
Proof. destruct l as [|[]]; cbn; try lia. destruct (Z.even m); lia. Qed.

Lemma binary_round_aux_finite (sx : bool) (mx ex : Z) (lx : location) :
  0 <= mx -> ex <= emax - prec -> Zdigits2 mx + ex < emax ->
  forall s, binary_round_aux prec emax sx mx ex lx <> S754_infinity s.
Proof.
  intros Hm He Hd s. unfold binary_round_aux.
  pose proof (shr_fexp_fits mx ex lx Hm) as S1.
  destruct (shr_fexp prec emax mx ex lx) as [mrs' e'].
  destruct S1 as (E1 & P1 & D1).
  pose proof (round_nearest_even_bounds (shr_m mrs') (loc_of_shr_record mrs')) as R.
  set (m1 := round_nearest_even (shr_m mrs') (loc_of_shr_record mrs')) in *.
  assert (Hm1 : 0 <= m1) by lia.
  pose proof (shr_fexp_fits m1 e' loc_Exact Hm1) as S2.
  destruct (shr_fexp prec emax m1 e' loc_Exact) as [mrs'' e''].
  destruct S2 as (E2 & P2 & D2).
  destruct (shr_m mrs'') as [|m|m]; try discriminate.
  destruct (e'' <=? emax - prec) eqn:L; try discriminate.
  apply Z.leb_gt in L. exfalso.
  assert (Zdigits2 m1 <= Zdigits2 (shr_m mrs') + 1).
  { destruct (Z.eq_dec m1 (shr_m mrs')) as [->|N]; [lia|].
    replace m1 with (shr_m mrs' + 1) by lia. now apply Zdigits2_succ. }
  unfold fexp, emin, prec, emax in *. lia.
Qed.


Lemma SFdiv_core_quotient (a b : positive) :
  (a <= b)%positive ->
  let '(q, e, _) := SFdiv_core_binary prec emax (Zpos a) 0 (Zpos b) 0 in
  0 <= q /\ e <= 0 /\ Zdigits2 q + e <= 1.
Proof.
  intros H. unfold SFdiv_core_binary.
  set (e := Z.min (fexp prec emax (Zdigits2 (Zpos a) + 0 - (Zdigits2 (Zpos b) + 0))) (0 - 0)).
  assert (He : e <= 0) by (unfold e; lia).
  set (m' := match 0 - 0 - e with
             | 0 => Zpos a
             | Zpos _ => Z.shiftl (Zpos a) (0 - 0 - e)
             | Zneg _ => 0
             end).
  assert (Hm : m' = Zpos a * 2 ^ (- e)).
  { unfold m'. replace (0 - 0 - e) with (- e) by lia.
    destruct (- e) as [|n|n] eqn:E; try lia.
    apply Z.shiftl_mul_pow2. lia. }
  pose proof (Z.pow_pos_nonneg 2 (- e)) as P.
  assert (Q : 0 <= m' / Zpos b <= 2 ^ (- e)).
  { split.
    - apply Z.div_pos; nia.
    - apply Z.div_le_upper_bound; [lia|].
      assert (Zpos a <= Zpos b) by lia. nia. }
  unfold Z.div in Q. destruct (Z.div_eucl m' (Zpos b)) as [q r]. cbn [fst] in Q.
  repeat split; try lia.
  assert (Zdigits2 q <= - e + 1); [|lia].
  apply Zdigits2_le; [|lia].
  replace (- e + 1) with (Z.succ (- e)) by lia. rewrite Z.pow_succ_r by lia. lia.
Qed.

Lemma int_truediv_total (a b : Z) :
  0 <= a <= b -> 0 < b -> exists q, int_truediv a b = Ret q.
Proof.
  intros [Ha Hab] Hb. unfold int_truediv.
  destruct (Z.eqb_spec b 0) as [E|_]; [lia|].
  destruct b as [|pb|pb]; try lia.
  destruct a as [|pa|pa]; try lia.
  - eexists. reflexivity.
  - cbn [operand SFdiv].
    pose proof (SFdiv_core_quotient pa pb) as C.
    destruct (SFdiv_core_binary prec emax (Zpos pa) 0 (Zpos pb) 0) as [[q e] l].
    destruct C as (Q0 & E0 & D); [lia|].
    pose proof (binary_round_aux_finite (xorb false false) q e l Q0) as F.
    destruct (binary_round_aux prec emax (xorb false false) q e l) eqn:R;
      try (eexists; reflexivity).
    exfalso. apply (F ltac:(unfold emax, prec; lia) ltac:(unfold emax; lia) s).
    reflexivity.
Qed.

(** ** The datastore classifier *)

(** On a well-formed item the usage is computed: neither exception of the
    division can occur. *)
Lemma used_pct_total (element : Datastore.t) :
  well_formed element ->
  exists q,
    int_truediv (Datastore.capacity element - Datastore.free_space element)
                (Datastore.capacity element) = Ret q
    /\ used_pct element = Ret (round2 (float_mul_int q 100)).
Proof.
  intros (Hc & Hf0 & Hf1). unfold used_pct.
  destruct (int_truediv_total
              (Datastore.capacity element - Datastore.free_space element)
              (Datastore.capacity element)) as [q Hq]; [lia | lia |].
  exists q. rewrite Hq. split; reflexivity.
Qed.

Lemma used_pct_zero_capacity (element : Datastore.t) :
  Datastore.capacity element = 0 -> used_pct element = Raise ZeroDivisionError.
Proof. intros H. unfold used_pct, int_truediv. rewrite H. reflexivity. Qed.

(** One turn of the loop on an item whose usage is computed. *)
Lemma datastores_step_run (v : DatastoresVars) (element : Datastore.t)
    (pct : float) (w : World) :
  used_pct element = Ret pct ->
  datastores_step v element w
  = (Ret (mkDatastoresVars
            (if breaches element then set_state 1 (ds_state v) else ds_state v)
            (ds_output v ++ breach_text element)
            (ds_perfdata v ++ usage_token element)),
     w).
Proof.
  intros H.
  unfold datastores_step, breach_text, usage_token, perf_token, breaches,
    pct_text, bind, lift, ret.
  rewrite H. destruct (float_ge_int pct 97);
    cbn [ds_state ds_output ds_perfdata];
    repeat (rewrite ?append_assoc, ?append_nil_r; cbn [String.append]);
    reflexivity.
Qed.

(** The loop over well-formed items, from any variables whose severity is
    OK or WARNING. *)
Lemma datastores_loop_run (data : list Datastore.t) (v : DatastoresVars)
    (w : World) :
  Forall well_formed data ->
  ds_state v = 0 \/ ds_state v = 1 ->
  datastores_loop data v w
  = (Ret (mkDatastoresVars
            (if existsb breaches data then 1 else ds_state v)
            (ds_output v ++ cat (map breach_text data))
            (ds_perfdata v ++ cat (map usage_token data))),
     w).
Proof.
  intros H. revert v. induction H as [|element data He _ IH]; intros v Hs.
  - cbn. rewrite !append_nil_r. destruct v. reflexivity.
  - destruct (used_pct_total element He) as (q & _ & Hq).
    cbn [datastores_loop]. unfold bind at 1.
    rewrite (datastores_step_run v element _ w Hq).
    rewrite IH; cbn [ds_state ds_output ds_perfdata].
    + cbn [existsb map cat fold_right]. fold (cat (map breach_text data)).
      fold (cat (map usage_token data)). rewrite !append_assoc.
      destruct (breaches element); cbn [orb];
        [rewrite (set_state_warning _ Hs)|];
        destruct (existsb breaches data); reflexivity.
    + destruct (breaches element); [right; now apply set_state_warning | exact Hs].
Qed.

(** The loop stops with the exception at the first item of capacity 0. *)
Lemma datastores_loop_zero_capacity
    (pre : list Datastore.t) (element : Datastore.t) (post : list Datastore.t)
    (v : DatastoresVars) (w : World) :
  Forall well_formed pre ->
  ds_state v = 0 \/ ds_state v = 1 ->
  Datastore.capacity element = 0 ->
  datastores_loop (pre ++ element :: post) v w = (Raise ZeroDivisionError, w).
Proof.
  intros H. revert v. induction H as [|first pre He _ IH]; intros v Hs Hz.
  - cbn [app datastores_loop]. unfold bind, datastores_step, lift.
    rewrite (used_pct_zero_capacity element Hz). reflexivity.
  - destruct (used_pct_total first He) as (q & _ & Hq).
    cbn [app datastores_loop]. unfold bind at 1.
    rewrite (datastores_step_run v first _ w Hq). apply IH; [|exact Hz].
    cbn [ds_state].
    destruct (breaches first); [right; now apply set_state_warning | exact Hs].
Qed.

Lemma used_pct_at_threshold (name : string) :
  let element := Datastore.mk name 1000 30 in
  used_pct element = Ret (literal 970 10)
  /\ pct_text element = "97.0" /\ breaches element = true.
Proof. vm_compute. repeat split. Qed.

Lemma used_pct_below_threshold (name : string) :
  let element := Datastore.mk name 1000 31 in
  used_pct element = Ret (literal 969 10)
  /\ pct_text element = "96.9" /\ breaches element = false.
Proof. vm_compute. repeat split. Qed.

(** C5. On a listing of well-formed datastores (capacity above 0, free
    space between 0 and the capacity) the usage of every item is
    [round(((capacity - free_space) / capacity) * 100, 2)] in binary64;
    the classifier exits with WARNING when some usage is 97 or more and
    with OK otherwise; the summary is "Total datastores: <count>" followed
    by ", <name>: <usage>%" for each such item; the perfdata holds one
    token ['<name>'=<usage>%;;;0;100] per item, breaching or not. With
    capacity 1000, free space 30 gives 97.0 and WARNING, free space 31
    gives 96.9 and OK. *)
Theorem classify_datastores_usage (data : list Datastore.t) (w : World) :
  Forall well_formed data ->
  Forall (fun element =>
            exists q pct,
              int_truediv (Datastore.capacity element
                           - Datastore.free_space element)
                          (Datastore.capacity element) = Ret q
              /\ pct = round2 (float_mul_int q 100)
              /\ used_pct element = Ret pct
              /\ breaches element = float_ge_int pct 97
              /\ pct_text element = str_of_float pct) data
  /\ classify_datastores data w
     = (Exit (if existsb breaches data then code WARNING else code OK),
        printed ((if existsb breaches data then "WARNING" else "OK") ++ " - "
                 ++ "Total datastores: " ++ str_of_int (len data)
                 ++ cat (map breach_text data)
                 ++ " | " ++ cat (map usage_token data)) w)
  /\ (forall name,
        let at97 := Datastore.mk name 1000 30 in
        let below := Datastore.mk name 1000 31 in
        used_pct at97 = Ret (literal 970 10)
        /\ pct_text at97 = "97.0"
        /\ classify_datastores [at97] w
           = (Exit (code WARNING),
              printed ("WARNING - "
                       ++ ("Total datastores: 1, " ++ name ++ ": 97.0%")
                       ++ (" | '" ++ name ++ "'=97.0%;;;0;100 ")) w)
        /\ used_pct below = Ret (literal 969 10)
        /\ pct_text below = "96.9"
        /\ classify_datastores [below] w
           = (Exit (code OK),
              printed ("OK - "
                       ++ "Total datastores: 1"
                       ++ (" | '" ++ name ++ "'=96.9%;;;0;100 ")) w)).
Proof.
  assert (R : forall l : list Datastore.t, Forall well_formed l ->
    classify_datastores l w
    = (Exit (if existsb breaches l then code WARNING else code OK),
       printed ((if existsb breaches l then "WARNING" else "OK") ++ " - "
                ++ "Total datastores: " ++ str_of_int (len l)
                ++ cat (map breach_text l)
                ++ " | " ++ cat (map usage_token l)) w)).
  { intros l H. unfold classify_datastores, bind.
    rewrite (datastores_loop_run l (datastores_init l) w H (or_introl eq_refl)).
    cbn [ds_state ds_output ds_perfdata datastores_init].
    destruct (existsb breaches l).
    - rewrite (exit_plugin_known 1 "WARNING"); [|right; split; reflexivity].
      rewrite !append_assoc. reflexivity.
    - rewrite (exit_plugin_known 0 "OK"); [|left; split; reflexivity].
      rewrite !append_assoc. reflexivity. }
  intros H. split; [|split].
  - apply Forall_forall. intros element Hin.
    rewrite Forall_forall in H.
    destruct (used_pct_total element (H element Hin)) as (q & Hq & Hp).
    exists q, (round2 (float_mul_int q 100)).
    unfold breaches, pct_text. rewrite Hp. repeat split; assumption.
  - exact (R data H).
  - intros name at97 below.
    destruct (used_pct_at_threshold name) as (A1 & A2 & A3).
    destruct (used_pct_below_threshold name) as (B1 & B2 & B3).
    fold at97 in A1, A2, A3. fold below in B1, B2, B3.
    split; [exact A1|]. split; [exact A2|].
    split; [vm_compute; reflexivity|].
    split; [exact B1|]. split; [exact B2|].
    vm_compute; reflexivity.
Qed.

Lemma classify_datastores_usage_witness :
  classify_datastores sample_datastores initial
  = (Exit 1,
     mkWorld []
       ["WARNING - Total datastores: 2, ds1: 97.0%"
        ++ " | 'ds1'=97.0%;;;0;100 'ds2'=96.9%;;;0;100 "]).
Proof.
  refine (eq_trans
            (proj1 (proj2 (classify_datastores_usage sample_datastores initial _)))
            _).
  - repeat constructor; cbn; lia.
  - vm_compute. reflexivity.
Defined.

(** C6, as stated, fails: on a listing with a datastore of capacity 0 the
    classifier does not exit with UNKNOWN; the division raises
    ZeroDivisionError, nothing catches it and nothing is printed. *)
Lemma classify_datastores_zero_capacity_uncaught :
  classify_datastores [Datastore.mk "ds0" 0 0] initial
  = (Raise ZeroDivisionError, initial)
  /\ fst (classify_datastores [Datastore.mk "ds0" 0 0] initial) <> Exit 3.
Proof. vm_compute. split; [reflexivity | discriminate]. Qed.

(** C6, amended. On a listing whose items before the first datastore of
    capacity 0 are well formed, the classifier ends at that item with an
    uncaught ZeroDivisionError: [exit_plugin] is not reached, nothing is
    printed, and the process ends with the status of a traceback. *)
Theorem classify_datastores_zero_capacity
    (pre : list Datastore.t) (element : Datastore.t) (post : list Datastore.t)
    (w : World) :
  Forall well_formed pre ->
  Datastore.capacity element = 0 ->
  let run := classify_datastores (pre ++ element :: post) w in
  run = (Raise ZeroDivisionError, w)
  /\ exit_status (fst run) = 1.
Proof.
  intros H Hz run.
  assert (E : run = (Raise ZeroDivisionError, w)).
  { unfold run, classify_datastores, bind.
    rewrite (datastores_loop_zero_capacity pre element post
               (datastores_init (pre ++ element :: post)) w H
               (or_introl eq_refl) Hz).
    reflexivity. }
  split; [exact E | now rewrite E].
Qed.

Lemma classify_datastores_zero_capacity_witness :
  classify_datastores sample_empty_datastore initial
  = (Raise ZeroDivisionError, initial).
Proof.
  refine (proj1 (classify_datastores_zero_capacity
                   [Datastore.mk "ds1" 1000 30] (Datastore.mk "ds0" 0 0) []
                   initial _ eq_refl)).
  repeat constructor; cbn; lia.
Defined.

(** ** The order of application *)

Lemma existsb_Permutation {A : Type} (f : A -> bool) (l l' : list A) :
  Permutation l l' -> existsb f l = existsb f l'.
Proof.
  induction 1 as [|x l l' _ IH|x y l|l l' l'' _ IH1 _ IH2]; cbn.
  - reflexivity.
  - now rewrite IH.
  - now rewrite !orb_assoc, (orb_comm (f y)).
  - now rewrite IH1.
Qed.

(** C3, amended. [set_state] is associative on every triple of severities
    other than UNKNOWN combined, after OK or UNKNOWN, onto WARNING; and the
    final severity of the host and datastore classifiers, which combine
    WARNING onto the running severity once per reported item, does not
    depend on the order of the listing. *)
Theorem set_state_associative :
  (forall a b c : Severity,
      unknown_onto_warning a b c = false ->
      set_state (code a) (set_state (code b) (code c))
      = set_state (set_state (code a) (code b)) (code c))
  /\ (forall data data' : list Host.t,
        Permutation data data' ->
        state (hosts_loop data) = state (hosts_loop data'))
  /\ (forall (data data' : list Datastore.t) (w : World),
        Permutation data data' ->
        Forall well_formed data ->
        fst (classify_datastores data w) = fst (classify_datastores data' w)).
Proof.
  split; [|split].
  - intros a b c H. destruct a, b, c; try reflexivity; discriminate H.
  - intros data data' P.
    destruct (hosts_loop_from data hosts_init (or_introl eq_refl)) as (E & _).
    destruct (hosts_loop_from data' hosts_init (or_introl eq_refl)) as (E' & _).
    unfold hosts_loop. rewrite E, E'.
    now rewrite (existsb_Permutation not_responding data data' P).
  - intros data data' w P H.
    assert (H' : Forall well_formed data').
    { rewrite Forall_forall in *. intros x Hx. apply H.
      apply (Permutation_in x (Permutation_sym P) Hx). }
    unfold classify_datastores, bind.
    rewrite (datastores_loop_run data (datastores_init data) w H
               (or_introl eq_refl)).
    rewrite (datastores_loop_run data' (datastores_init data') w H'
               (or_introl eq_refl)).
    cbn [ds_state ds_output ds_perfdata].
    rewrite (existsb_Permutation breaches data data' P).
    destruct (existsb breaches data'); reflexivity.
Qed.

Lemma set_state_associative_witness :
  set_state 1 (set_state 0 1) = set_state (set_state 1 0) 1.
Proof. exact (proj1 set_state_associative WARNING OK WARNING eq_refl). Defined.

(** ** Concrete runs *)

Example vms_of_each_state :
  classify_vms [Vm.mk "POWERED_ON"; Vm.mk "POWERED_ON"; Vm.mk "POWERED_OFF";
                Vm.mk "SUSPENDED"] initial
  = (Exit 0,
     mkWorld []
       ["OK - Total VMs: 4, On: 2, Off: 1, Suspended: 1"
        ++ " | 'vm_on'=2;;;0;4 'vm_off'=1;;;0;4 'vm_suspended'=1;;;0;4"
        ++ " 'vm_total'=4;;;;"]).
Proof. vm_compute. reflexivity. Qed.

Example host_not_responding :
  classify_hosts [Host.mk "h1" "POWERED_ON" "NOT_RESPONDING"] initial
  = (Exit 1,
     mkWorld []
       ["WARNING -  1 Hosts total - Power On: 0, Off: 0, Standby: 0"
        ++ " - Connected: 0, Disconnected: 0, Not responding: 1 (h1)"
        ++ " | 'power_on'=0;;;0;1 'power_off'=0;;;0;1 'power_standby'=0;;;0;1"
        ++ " 'conn_connected'=0;;;0;1 'conn_disconnected'=0;;;0;1"
        ++ " 'conn_notresp'=1;;;0;1"]).
Proof. vm_compute. reflexivity. Qed.

Example host_powered_off :
  classify_hosts [Host.mk "h2" "POWERED_OFF" "CONNECTED"] initial
  = (Exit 0,
     mkWorld []
       ["OK -  1 Hosts total - Power On: 0, Off: 1 (h2), Standby: 0"
        ++ " - Connected: 1, Disconnected: 0, Not responding: 0"
        ++ " | 'power_on'=0;;;0;1 'power_off'=1;;;0;1 'power_standby'=0;;;0;1"
        ++ " 'conn_connected'=1;;;0;1 'conn_disconnected'=0;;;0;1"
        ++ " 'conn_notresp'=0;;;0;1"]).
Proof. vm_compute. reflexivity. Qed.

Example empty_datastore_listing :
  classify_datastores [] initial
  = (Exit 0, mkWorld [] ["OK - Total datastores: 0 | "]).
Proof. vm_compute. reflexivity. Qed.

(** A whole run: the session is opened, queried once and destroyed before
    the result is printed. *)
Example healthy_run :
  let '(outcome, w) :=
    main healthy loads_empty loads_empty loads_empty
         (fun _ => "") (fun _ => "") (fun _ => "") sample_args initial in
  outcome = Exit 0
  /\ map (fun r => (req_method r, req_url r)) (requests w)
     = [("POST", "https://vcenter.example/api/session");
        ("GET", "https://vcenter.example/api/vcenter/host");
        ("DELETE", "https://vcenter.example/api/session")]
  /\ map req_headers (requests w)
     = [form_encoded;
        [("Content-Type", "application/x-www-form-urlencoded");
         ("vmware-api-session-id", "token")];
        [("vmware-api-session-id", "token");
         ("Content-Type", "application/x-www-form-urlencoded")]].
Proof. vm_compute. repeat split. Qed.

(* ================================================================== *)
(** * Further properties of the plugin *)

(** ** The session, request by request *)

Lemma try_request_run (transport : list Request -> Request -> Reply)
    (r : Request) (w : World) :
  try_request transport r w
  = match transport (requests w) r with
    | ConnectionFailure err =>
        (Exit 3, printed (connection_error_line err) (sent r w))
    | Response status_code text => (Ret (status_code, text), sent r w)
    end.
Proof.
  unfold try_request, request, bind.
  destruct (transport (requests w) r); reflexivity.
Qed.

Lemma init_run (transport : list Request -> Request -> Reply)
    (args : Args) (w : World) :
  VCenterAPISession_init transport args w
  = match transport (requests w) (auth_request args) with
    | ConnectionFailure err =>
        (Exit 3,
         printed (connection_error_line err) (sent (auth_request args) w))
    | Response status_code text =>
        if py_in status_code [200; 201]
        then (Ret (opened args text), sent (auth_request args) w)
        else (Exit 3,
              printed (auth_error_line status_code text)
                      (sent (auth_request args) w))
    end.
Proof.
  unfold VCenterAPISession_init, bind. cbn [baseurl cacert timeout debug].
  fold (auth_request args). rewrite try_request_run.
  destruct (transport (requests w) (auth_request args)) as [err|s t].
  - reflexivity.
  - destruct (py_in s [200; 201]); reflexivity.
Qed.

Lemma destroy_run (transport : list Request -> Request -> Reply)
    (self : VCenterAPISession) (token : string) (w : World) :
  authtoken self = Some token ->
  destroy transport self w
  = match transport (requests w) (destroy_request self token) with
    | ConnectionFailure err =>
        (Exit 3,
         printed (connection_error_line err)
                 (sent (destroy_request self token) w))
    | Response status_code text =>
        if py_in status_code [200; 201; 204]
        then (Ret tt, sent (destroy_request self token) w)
        else (Exit 3,
              printed (teardown_error_line status_code text)
                      (sent (destroy_request self token) w))
    end.
Proof.
  intros H. unfold destroy, get_authtoken, bind. rewrite H. unfold ret at 1.
  fold (destroy_request self token). rewrite try_request_run.
  destruct (transport (requests w) (destroy_request self token)) as [err|s t].
  - reflexivity.
  - destruct (py_in s [200; 201; 204]); reflexivity.
Qed.

Lemma query_run {J : Type} (transport : list Request -> Request -> Reply)
    (loads : string -> option J) (self : VCenterAPISession)
    (token method endpoint : string) (headers : option dict) (w : World) :
  authtoken self = Some token ->
  let r := query_request self token method endpoint headers in
  query_api_endpoint transport loads self method endpoint headers w
  = match transport (requests w) r with
    | ConnectionFailure err =>
        (Exit 3, printed (connection_error_line err) (sent r w))
    | Response status_code text =>
        if py_in status_code [400; 401; 403; 500; 503]
        then (Exit 3, printed (api_error_line status_code text) (sent r w))
        else (decoded loads text, sent r w)
    end.
Proof.
  intros H r. unfold query_api_endpoint, get_authtoken, bind.
  rewrite H. unfold ret at 1.
  fold (query_request self token method endpoint headers). fold r.
  rewrite try_request_run.
  destruct (transport (requests w) r) as [err|s t].
  - reflexivity.
  - destruct (py_in s [400; 401; 403; 500; 503]).
    + reflexivity.
    + unfold when, ret, decoded, raise. destruct (loads t); reflexivity.
Qed.

Lemma run_check_run {J : Type} (transport : list Request -> Request -> Reply)
    (loads : string -> option J) (dumps : J -> string)
    (classify : J -> M unit) (endpoint : string)
    (session : VCenterAPISession) (token : string) (w : World) :
  authtoken session = Some token ->
  let q := query_request session token "GET" endpoint None in
  let d := destroy_request session token in
  run_check transport loads dumps classify endpoint session w
  = match transport (requests w) q with
    | ConnectionFailure err =>
        (Exit 3, printed (connection_error_line err) (sent q w))
    | Response status_code text =>
        if py_in status_code [400; 401; 403; 500; 503]
        then (Exit 3, printed (api_error_line status_code text) (sent q w))
        else
          match loads text with
          | None => (Raise JSONDecodeError, sent q w)
          | Some data =>
              let w1 := if debug session
                        then printed (dumps data) (sent q w)
                        else sent q w in
              match transport (requests w1) d with
              | ConnectionFailure err =>
                  (Exit 3, printed (connection_error_line err) (sent d w1))
              | Response status_code' text' =>
                  if py_in status_code' [200; 201; 204]
                  then classify data (sent d w1)
                  else (Exit 3,
                        printed (teardown_error_line status_code' text')
                                (sent d w1))
              end
          end
    end.
Proof.
  intros H q d. unfold run_check. unfold bind at 1.
  rewrite (query_run transport loads session token "GET" endpoint None w H).
  fold q. destruct (transport (requests w) q) as [err|s t]; [reflexivity|].
  destruct (py_in s [400; 401; 403; 500; 503]); [reflexivity|].
  unfold decoded. destruct (loads t) as [data|]; [|reflexivity].
  cbn zeta. unfold bind at 1.
  assert (P : when (debug session) (print (dumps data)) (sent q w)
              = (Ret tt, if debug session
                         then printed (dumps data) (sent q w) else sent q w)).
  { destruct (debug session); reflexivity. }
  rewrite P. unfold bind at 1.
  rewrite (destroy_run transport session token _ H). fold d.
  destruct (transport _ d) as [err|s' t']; [reflexivity|].
  destruct (py_in s' [200; 201; 204]); reflexivity.
Qed.

(** ** What a classification leaves behind *)

Lemma reports_classify_vms (data : list Vm.t) : reports (classify_vms data).
Proof.
  left. exists 0, (vms_output (vms_states data) ++ vms_perfdata (vms_states data)).
  split; [now left|]. intros w. reflexivity.
Qed.

Lemma hosts_loop_state (data : list Host.t) :
  state (hosts_strings (hosts_loop data))
  = if existsb not_responding data then 1 else 0.
Proof.
  destruct (hosts_loop_from data hosts_init (or_introl eq_refl)) as (E & _).
  fold (hosts_loop data) in E. simpl (state hosts_init) in E. rewrite <- E.
  unfold hosts_strings.
  destruct (power_state (hosts_loop data)), (connection_state (hosts_loop data)).
  reflexivity.
Qed.

Lemma reports_classify_hosts (data : list Host.t) :
  reports (classify_hosts data).
Proof.
  left. unfold classify_hosts. cbn zeta. rewrite hosts_loop_state.
  destruct (existsb not_responding data).
  - exists 1. eexists. split; [now right|]. intros w.
    apply (exit_plugin_known 1 "WARNING"). right. split; reflexivity.
  - exists 0. eexists. split; [now left|]. intros w.
    apply (exit_plugin_known 0 "OK"). left. split; reflexivity.
Qed.

(** The usage of an item is a float or an exception of the division. *)
Lemma used_pct_cases (element : Datastore.t) :
  (exists pct, used_pct element = Ret pct)
  \/ used_pct element = Raise ZeroDivisionError
  \/ used_pct element = Raise OverflowError.
Proof.
  unfold used_pct, int_truediv.
  destruct (Datastore.capacity element =? 0); [right; left; reflexivity|].
  destruct (SFdiv prec emax _ _); try (left; eexists; reflexivity).
  right; right; reflexivity.
Qed.

Lemma datastores_step_raise (v : DatastoresVars) (element : Datastore.t)
    (e : Exn) (w : World) :
  used_pct element = Raise e -> datastores_step v element w = (Raise e, w).
Proof. intros H. unfold datastores_step, bind, lift. now rewrite H. Qed.

Lemma datastores_loop_cases (data : list Datastore.t) (v : DatastoresVars) :
  ds_state v = 0 \/ ds_state v = 1 ->
  (exists v', (ds_state v' = 0 \/ ds_state v' = 1)
     /\ forall w, datastores_loop data v w = (Ret v', w))
  \/ (exists e, (e = ZeroDivisionError \/ e = OverflowError)
        /\ forall w, datastores_loop data v w = (Raise e, w)).
Proof.
  revert v. induction data as [|element data IH]; intros v Hs.
  - left. exists v. split; [exact Hs | reflexivity].
  - destruct (used_pct_cases element) as [(pct & Hp) | Hr].
    + set (v1 := mkDatastoresVars
                   (if breaches element then set_state 1 (ds_state v)
                    else ds_state v)
                   (ds_output v ++ breach_text element)
                   (ds_perfdata v ++ usage_token element)).
      assert (Hs1 : ds_state v1 = 0 \/ ds_state v1 = 1).
      { unfold v1. cbn [ds_state].
        destruct (breaches element);
          [right; now apply set_state_warning | exact Hs]. }
      destruct (IH v1 Hs1) as [(v' & Hv' & R) | (e & He & R)].
      * left. exists v'. split; [exact Hv'|]. intros w.
        cbn [datastores_loop]. unfold bind at 1.
        rewrite (datastores_step_run v element pct w Hp). apply R.
      * right. exists e. split; [exact He|]. intros w.
        cbn [datastores_loop]. unfold bind at 1.
        rewrite (datastores_step_run v element pct w Hp). apply R.
    + right.
      assert (exists e, (e = ZeroDivisionError \/ e = OverflowError)
                        /\ used_pct element = Raise e) as (e & He & Hu).
      { destruct Hr as [Hr|Hr]; eexists; (split; [|exact Hr]); auto. }
      exists e. split; [exact He|]. intros w.
      cbn [datastores_loop]. unfold bind at 1.
      now rewrite (datastores_step_raise v element e w Hu).
Qed.

Lemma reports_classify_datastores (data : list Datastore.t) :
  reports (classify_datastores data).
Proof.
  destruct (datastores_loop_cases data (datastores_init data)
              (or_introl eq_refl)) as [(v & Hv & R) | (e & He & R)].
  - left. destruct Hv as [Hv|Hv].
    + exists 0, (ds_output v ++ ds_perfdata v). split; [now left|].
      intros w. unfold classify_datastores, bind. rewrite R, Hv.
      apply (exit_plugin_known 0 "OK"). left. split; reflexivity.
    + exists 1, (ds_output v ++ ds_perfdata v). split; [now right|].
      intros w. unfold classify_datastores, bind. rewrite R, Hv.
      apply (exit_plugin_known 1 "WARNING"). right. split; reflexivity.
  - right. exists e. split; [exact He|]. intros w.
    unfold classify_datastores, bind. now rewrite R.
Qed.

(** ** The whole run *)

Section Run.

Variable transport : list Request -> Request -> Reply.
Variable loads_vms : string -> option (list Vm.t).
Variable loads_hosts : string -> option (list Host.t).
Variable loads_datastores : string -> option (list Datastore.t).
Variable dumps_vms : list Vm.t -> string.
Variable dumps_hosts : list Host.t -> string.
Variable dumps_datastores : list Datastore.t -> string.

Local Abbreviation run :=
  (main transport loads_vms loads_hosts loads_datastores
        dumps_vms dumps_hosts dumps_datastores).

(** [main] after an accepted authentication: one of the three checks, or
    nothing for a mode that is none of the three. *)
Lemma main_run (args : Args) (w : World) :
  run args w
  = match transport (requests w) (auth_request args) with
    | ConnectionFailure err =>
        (Exit 3,
         printed (connection_error_line err) (sent (auth_request args) w))
    | Response status_code text =>
        if py_in status_code [200; 201]
        then
          let session := opened args text in
          let w1 := sent (auth_request args) w in
          if String.eqb (arg_mode args) "vms" then
            run_check transport loads_vms dumps_vms classify_vms
                      "/api/vcenter/vm" session w1
          else if String.eqb (arg_mode args) "hosts" then
            run_check transport loads_hosts dumps_hosts classify_hosts
                      "/api/vcenter/host" session w1
          else if String.eqb (arg_mode args) "datastores" then
            run_check transport loads_datastores dumps_datastores
                      classify_datastores "/api/vcenter/datastore" session w1
          else (Ret tt, w1)
        else (Exit 3,
              printed (auth_error_line status_code text)
                      (sent (auth_request args) w))
    end.
Proof.
  unfold main. unfold bind at 1. rewrite init_run.
  destruct (transport (requests w) (auth_request args)) as [err|s t];
    [reflexivity|].
  destruct (py_in s [200; 201]); [|reflexivity].
  cbn zeta.
  destruct (String.eqb (arg_mode args) "vms"); [reflexivity|].
  destruct (String.eqb (arg_mode args) "hosts"); [reflexivity|].
  destruct (String.eqb (arg_mode args) "datastores"); reflexivity.
Qed.

End Run.

(** ** The exit contract *)

(** [exit_plugin] ends the process with the return code it is given
    when that code is 0, 1, 2 or 3, after printing one line that starts
    with the matching word; the perfdata is left out for UNKNOWN. With any
    other return code it prints nothing and returns to its caller. *)
Lemma exit_plugin_contract (returncode : Z) (output perfdata : string)
    (w : World) :
  exit_plugin returncode output perfdata w
  = if py_in returncode [0; 1; 2; 3]
    then (Exit returncode,
          printed (level returncode ++ " - "
                   ++ (if returncode =? 3 then output
                       else output ++ perfdata)) w)
    else (Ret tt, w).
Proof.
  unfold exit_plugin, py_in, existsb.
  destruct (Z.eqb_spec returncode 3) as [->|N3]; [reflexivity|].
  destruct (Z.eqb_spec returncode 2) as [->|N2]; [reflexivity|].
  destruct (Z.eqb_spec returncode 1) as [->|N1]; [reflexivity|].
  destruct (Z.eqb_spec returncode 0) as [->|N0]; reflexivity.
Qed.

(** ** Opening the session *)

Lemma lstrip_chars_starts (c : ascii) (l : list ascii) :
  starts_with c (lstrip_chars c l) = false.
Proof.
  induction l as [|a l IH]; [reflexivity|]. cbn.
  destruct (Ascii.eqb a c) eqn:E; [exact IH | cbn; exact E].
Qed.

Lemma lstrip_chars_split (c : ascii) (l : list ascii) :
  exists n, l = (repeat c n ++ lstrip_chars c l)%list.
Proof.
  induction l as [|a l (n & IH)]; [exists O; reflexivity|]. cbn.
  destruct (Ascii.eqb_spec a c) as [->|N].
  - exists (S n). cbn. now rewrite <- IH.
  - exists O. reflexivity.
Qed.

Lemma lstrip_chars_id (c : ascii) (l : list ascii) :
  starts_with c l = false -> lstrip_chars c l = l.
Proof. destruct l as [|a l]; [reflexivity|]. cbn. now intros ->. Qed.

Lemma starts_with_app (c : ascii) (l l' : list ascii) :
  l <> [] -> starts_with c (l ++ l') = starts_with c l.
Proof. destruct l; [congruence | reflexivity]. Qed.

Lemma strip_list (c : ascii) (s : string) :
  list_ascii_of_string (strip c s)
  = rev (lstrip_chars c (rev (lstrip_chars c (list_ascii_of_string s)))).
Proof. unfold strip. apply list_ascii_of_string_of_list_ascii. Qed.

(** The result of [strip] neither starts nor ends with the character. *)
Lemma strip_bare (c : ascii) (s : string) : bare c (strip c s) = true.
Proof.
  unfold bare. rewrite strip_list, rev_involutive.
  set (l1 := lstrip_chars c (list_ascii_of_string s)).
  rewrite (lstrip_chars_starts c (rev l1)). rewrite andb_true_r.
  destruct (lstrip_chars_split c (rev l1)) as (n & E).
  set (r := lstrip_chars c (rev l1)) in *.
  assert (L : l1 = (rev r ++ repeat c n)%list).
  { rewrite <- (rev_involutive l1), E, rev_app_distr.
    f_equal. clear. induction n as [|n IH]; [reflexivity|].
    cbn. rewrite IH. clear. induction n as [|n IH]; [reflexivity|].
    cbn. now rewrite <- IH. }
  destruct (rev r) as [|a t] eqn:R; [reflexivity|].
  pose proof (lstrip_chars_starts c (list_ascii_of_string s)) as S1.
  fold l1 in S1. rewrite L in S1. cbn in S1. cbn. now rewrite S1.
Qed.

Lemma list_ascii_of_string_app (a b : string) :
  list_ascii_of_string (a ++ b)
  = (list_ascii_of_string a ++ list_ascii_of_string b)%list.
Proof. induction a as [|x a IH]; cbn; [reflexivity | now rewrite IH]. Qed.

Lemma lstrip_chars_same (c : ascii) (l : list ascii) :
  lstrip_chars c (c :: l) = lstrip_chars c l.
Proof. cbn. now rewrite Ascii.eqb_refl. Qed.

(** A bare token between two quotes comes back as it was. *)
Lemma strip_quoted (s : string) :
  bare dquote s = true -> strip dquote (quoted s) = s.
Proof.
  unfold bare. intros H. apply andb_prop in H. destruct H as [H1 H2].
  apply negb_true_iff in H1, H2.
  rewrite <- (string_of_list_ascii_of_string s) at 2.
  unfold strip, quoted. f_equal.
  cbn [list_ascii_of_string]. rewrite list_ascii_of_string_app.
  cbn [list_ascii_of_string].
  set (l := list_ascii_of_string s) in *.
  rewrite lstrip_chars_same.
  destruct l as [|a t] eqn:L.
  - cbn [app rev]. rewrite lstrip_chars_same. reflexivity.
  - rewrite (lstrip_chars_id dquote ((a :: t) ++ [dquote]))
      by (rewrite starts_with_app by discriminate; exact H1).
    rewrite rev_app_distr.
    change (rev [dquote] ++ rev (a :: t))%list with (dquote :: rev (a :: t)).
    rewrite lstrip_chars_same.
    rewrite (lstrip_chars_id dquote (rev (a :: t))) by exact H2.
    apply rev_involutive.
Qed.

(** X1. When the authentication response is accepted (status 200 or
    201), [__init__] prints nothing and returns a session that carries the
    arguments and a token with no double quote at either end; when the
    body is a token between two double quotes (the token itself bare), the
    token stored is exactly that token. *)
Theorem session_token_unquoted
    (transport : list Request -> Request -> Reply) (args : Args) (w : World)
    (status_code : Z) (text : string) :
  In status_code [200; 201] ->
  transport (requests w) (auth_request args) = Response status_code text ->
  exists token,
    VCenterAPISession_init transport args w
    = (Ret (mkSession (arg_baseurl args) (arg_cacert args) (arg_timeout args)
                      (arg_debug args) (Some token)),
       sent (auth_request args) w)
    /\ bare dquote token = true
    /\ (forall t, bare dquote t = true -> text = quoted t -> token = t).
Proof.
  intros Hs Hr. exists (strip dquote text). split; [|split].
  - rewrite init_run, Hr. apply py_in_In in Hs. now rewrite Hs.
  - apply strip_bare.
  - intros t Hb ->. now apply strip_quoted.
Qed.

Lemma session_token_unquoted_witness :
  VCenterAPISession_init (answering 200 (quoted "token")) sample_args initial
  = (Ret sample_session, sent (auth_request sample_args) initial).
Proof.
  destruct (session_token_unquoted (answering 200 (quoted "token"))
              sample_args initial 200 (quoted "token")
              (or_introl eq_refl) eq_refl) as (token & E & _ & Q).
  rewrite E. rewrite (Q "token" eq_refl eq_refl). reflexivity.
Defined.

(** X2. When the authentication response has any status other than 200
    and 201, the run ends there: exit code 3, one line with the status and
    the body, and no request besides the authentication request. *)
Theorem auth_rejected
    (transport : list Request -> Request -> Reply)
    (loads_vms : string -> option (list Vm.t))
    (loads_hosts : string -> option (list Host.t))
    (loads_datastores : string -> option (list Datastore.t))
    (dumps_vms : list Vm.t -> string)
    (dumps_hosts : list Host.t -> string)
    (dumps_datastores : list Datastore.t -> string)
    (args : Args) (status_code : Z) (text : string) :
  transport [] (auth_request args) = Response status_code text ->
  ~ In status_code [200; 201] ->
  main transport loads_vms loads_hosts loads_datastores
       dumps_vms dumps_hosts dumps_datastores args initial
  = (Exit 3,
     mkWorld [auth_request args]
       ["UNKNOWN - Error during API auth request: HTTP status "
        ++ str_of_int status_code ++ " : " ++ text]).
Proof.
  intros Hr Hs. rewrite main_run. cbn [requests initial]. rewrite Hr.
  destruct (py_in status_code [200; 201]) eqn:E; [|reflexivity].
  apply py_in_In in E. contradiction.
Qed.

Lemma auth_rejected_witness :
  main (answering 401 "denied") loads_empty loads_empty loads_empty
       (fun _ => "") (fun _ => "") (fun _ => "") sample_args initial
  = (Exit 3,
     mkWorld [auth_request sample_args]
       ["UNKNOWN - Error during API auth request: HTTP status 401 : denied"]).
Proof.
  refine (auth_rejected (answering 401 "denied") loads_empty loads_empty
            loads_empty (fun _ => "") (fun _ => "") (fun _ => "")
            sample_args 401 "denied" eq_refl _).
  vm_compute. intuition discriminate.
Defined.

(** ** The requests of a query and of a teardown *)

Lemma dict_get_update_same (d : dict) (k v : string) :
  dict_get (dict_update d k v) k = Some v.
Proof.
  induction d as [|[k' v'] d IH]; cbn.
  - now rewrite String.eqb_refl.
  - destruct (String.eqb k' k) eqn:E; cbn.
    + now rewrite String.eqb_refl.
    + now rewrite E.
Qed.

Lemma dict_get_update_other (d : dict) (k v k0 : string) :
  k0 <> k -> dict_get (dict_update d k v) k0 = dict_get d k0.
Proof.
  intros N. induction d as [|[k' v'] d IH]; cbn.
  - destruct (String.eqb_spec k k0); [congruence | reflexivity].
  - destruct (String.eqb_spec k' k) as [->|N']; cbn.
    + destruct (String.eqb_spec k k0); [congruence | reflexivity].
    + destruct (String.eqb k' k0); [reflexivity | exact IH].
Qed.

Lemma dict_keys_update (d : dict) (k v : string) :
  dict_keys (dict_update d k v)
  = if existsb (fun k' => String.eqb k' k) (dict_keys d)
    then dict_keys d else (dict_keys d ++ [k])%list.
Proof.
  unfold dict_keys. induction d as [|[k' v'] d IH]; cbn; [reflexivity|].
  destruct (String.eqb_spec k' k) as [->|N]; cbn; [reflexivity|].
  rewrite IH. now destruct (existsb _ (map fst d)).
Qed.

(** X3. [query_api_endpoint] issues exactly one request, whatever the
    reply: the given method on base URL plus endpoint, with the session's
    timeout and CA bundle and without credentials. Its headers are the
    caller's (or the form-encoded content type when none are given) with
    the session token under "vmware-api-session-id": a value the caller
    gave for that header is replaced, every other header is kept, and the
    order of the headers does not change. *)
Theorem query_request_headers {J : Type}
    (transport : list Request -> Request -> Reply)
    (loads : string -> option J) (self : VCenterAPISession)
    (token method endpoint : string) (headers : option dict) (w : World) :
  authtoken self = Some token ->
  let given := match headers with None => form_encoded | Some h => h end in
  exists r,
    requests (snd (query_api_endpoint transport loads self method endpoint
                                      headers w))
    = (requests w ++ [r])%list
    /\ req_method r = method
    /\ req_url r = baseurl self ++ endpoint
    /\ req_timeout r = timeout self
    /\ req_verify r = cacert self
    /\ req_auth r = None
    /\ dict_get (req_headers r) session_header = Some token
    /\ (forall k, k <> session_header ->
                  dict_get (req_headers r) k = dict_get given k)
    /\ dict_keys (req_headers r)
       = if existsb (fun k => String.eqb k session_header) (dict_keys given)
         then dict_keys given
         else (dict_keys given ++ [session_header])%list.
Proof.
  intros H given.
  exists (query_request self token method endpoint headers).
  split.
  - rewrite (query_run transport loads self token method endpoint headers w H).
    cbn zeta.
    destruct (transport _ _) as [err|s t]; [reflexivity|].
    destruct (py_in s [400; 401; 403; 500; 503]); reflexivity.
  - unfold query_request. cbn [req_method req_url req_timeout req_verify
                               req_auth req_headers]. fold given.
    repeat split.
    + apply dict_get_update_same.
    + intros k N. now apply dict_get_update_other.
    + apply dict_keys_update.
Qed.

Lemma query_request_headers_witness :
  exists r,
    requests (snd (query_api_endpoint (answering 200 "[]")
                     (@loads_empty Vm.t) sample_session "GET"
                     "/api/vcenter/vm"
                     (Some [("vmware-api-session-id", "stale");
                            ("Accept", "application/json")])
                     initial))
    = [r]
    /\ dict_get (req_headers r) "vmware-api-session-id" = Some "token"
    /\ dict_get (req_headers r) "Accept" = Some "application/json"
    /\ dict_keys (req_headers r) = ["vmware-api-session-id"; "Accept"].
Proof.
  destruct (query_request_headers (answering 200 "[]") (@loads_empty Vm.t)
              sample_session "token" "GET" "/api/vcenter/vm"
              (Some [("vmware-api-session-id", "stale");
                     ("Accept", "application/json")])
              initial eq_refl)
    as (r & E & _ & _ & _ & _ & _ & G & O & K).
  exists r. split; [exact E|]. split; [exact G|]. split; [|exact K].
  now rewrite (O "Accept") by discriminate.
Defined.

(** X4. Once the transport has delivered a response, [destroy] returns
    without printing exactly when the status is 200, 201 or 204; any other
    status ends the run with exit code 3 and a line that carries the
    status and the body. *)
Theorem destroy_status
    (transport : list Request -> Request -> Reply)
    (self : VCenterAPISession) (token : string) (w : World)
    (status_code : Z) (text : string) :
  authtoken self = Some token ->
  transport (requests w) (destroy_request self token)
  = Response status_code text ->
  let r := destroy_request self token in
  let result := destroy transport self w in
  (In status_code [200; 201; 204] -> result = (Ret tt, sent r w))
  /\ (~ In status_code [200; 201; 204] ->
      result
      = (Exit 3,
         printed ("UNKNOWN - Error during token invalidation request: "
                  ++ "HTTP status " ++ str_of_int status_code ++ " : " ++ text)
                 (sent r w)))
  /\ (fst result = Ret tt <-> In status_code [200; 201; 204]).
Proof.
  intros Ht Hr r result.
  assert (E : result
              = if py_in status_code [200; 201; 204]
                then (Ret tt, sent r w)
                else (Exit 3,
                      printed (teardown_error_line status_code text)
                              (sent r w))).
  { unfold result. rewrite (destroy_run transport self token w Ht).
    rewrite Hr. reflexivity. }
  pose proof (py_in_In status_code [200; 201; 204]) as I.
  destruct (py_in status_code [200; 201; 204]); rewrite E.
  - repeat split; try reflexivity.
    + intros N. exfalso. apply N, I. reflexivity.
    + intros _. apply I. reflexivity.
  - repeat split.
    + intros H. apply I in H. discriminate H.
    + cbn [fst]. discriminate.
    + intros H. apply I in H. discriminate H.
Qed.

Lemma destroy_status_witness :
  destroy (answering 204 "") sample_session initial
  = (Ret tt, sent (destroy_request sample_session "token") initial).
Proof.
  refine (proj1 (destroy_status (answering 204 "") sample_session "token"
                   initial 204 "" eq_refl eq_refl) _).
  vm_compute. tauto.
Defined.

(** ** One check, from the fetch to the exit *)

Lemma unknown_line (line : string) :
  exists rest, [("UNKNOWN - " ++ line)%string] = [level 3 ++ " - " ++ rest].
Proof. exists line. reflexivity. Qed.

(** The requests, the output and the end of a check whose classification
    reports. *)
Lemma run_check_shape {J : Type}
    (transport : list Request -> Request -> Reply)
    (loads : string -> option J) (dumps : J -> string)
    (classify : J -> M unit) (endpoint : string)
    (session : VCenterAPISession) (token : string) (w : World) :
  (forall data, reports (classify data)) ->
  authtoken session = Some token ->
  let q := query_request session token "GET" endpoint None in
  let d := destroy_request session token in
  let result := run_check transport loads dumps classify endpoint session w in
  exists dump lines,
    (requests (snd result) = (requests w ++ [q])%list
     \/ requests (snd result) = (requests w ++ [q; d])%list)
    /\ stdout (snd result) = (stdout w ++ dump ++ lines)%list
    /\ (dump = [] \/ debug session = true /\ exists x, dump = [x])
    /\ verdict (fst result) lines.
Proof.
  intros Hc H q d result. unfold result.
  rewrite (run_check_run transport loads dumps classify endpoint session token
             w H). fold q. fold d.
  destruct (transport (requests w) q) as [err|s t].
  { exists [], [connection_error_line err]. cbn.
    repeat split; auto; apply unknown_line. }
  destruct (py_in s [400; 401; 403; 500; 503]).
  { exists [], [api_error_line s t]. cbn.
    repeat split; auto; apply unknown_line. }
  destruct (loads t) as [data|].
  2:{ exists [], []. cbn. rewrite app_nil_r. repeat split; auto. }
  cbn zeta.
  set (dump := if debug session then [dumps data] else []).
  set (w1 := if debug session then printed (dumps data) (sent q w)
             else sent q w).
  assert (R1 : requests w1 = (requests w ++ [q])%list)
    by (unfold w1; destruct (debug session); reflexivity).
  assert (S1 : stdout w1 = (stdout w ++ dump)%list).
  { unfold w1, dump. destruct (debug session); cbn;
      [reflexivity | now rewrite app_nil_r]. }
  assert (D : dump = [] \/ debug session = true /\ exists x, dump = [x]).
  { unfold dump. destruct (debug session); [right|left]; eauto. }
  assert (R2 : (requests w1 ++ [d] = requests w ++ [q; d])%list)
    by (rewrite R1, <- app_assoc; reflexivity).
  destruct (transport (requests w1) d) as [err|s' t'].
  { exists dump, [connection_error_line err]. cbn [fst snd printed sent
      requests stdout]. rewrite R2, S1, <- app_assoc.
    repeat split; auto; apply unknown_line. }
  destruct (py_in s' [200; 201; 204]).
  2:{ exists dump, [teardown_error_line s' t']. cbn [fst snd printed sent
        requests stdout]. rewrite R2, S1, <- app_assoc.
      repeat split; auto; apply unknown_line. }
  destruct (Hc data) as [(c & rest & Hcode & E) | (e & He & E)]; rewrite E.
  - exists dump, [level c ++ " - " ++ rest]. cbn [fst snd printed sent
      requests stdout]. rewrite R2, S1, <- app_assoc.
    split; [auto|]. split; [reflexivity|]. split; [exact D|].
    split; [destruct Hcode; auto | now exists rest].
  - exists dump, []. cbn [fst snd sent requests stdout].
    rewrite R2, S1, app_nil_r.
    split; [auto|]. split; [reflexivity|]. split; [exact D|].
    split; [reflexivity | destruct He; auto].
Qed.

(** A check with and without the debug flag. *)
Lemma run_check_debug {J : Type}
    (transport : list Request -> Request -> Reply)
    (loads : string -> option J) (dumps : J -> string)
    (classify : J -> M unit) (endpoint : string)
    (url ca : string) (seconds : Z) (token : string) (w : World) :
  (forall data, reports (classify data)) ->
  let quiet :=
    run_check transport loads dumps classify endpoint
              (mkSession url ca seconds false (Some token)) w in
  let verbose :=
    run_check transport loads dumps classify endpoint
              (mkSession url ca seconds true (Some token)) w in
  fst verbose = fst quiet
  /\ requests (snd verbose) = requests (snd quiet)
  /\ exists dump lines,
       stdout (snd quiet) = (stdout w ++ lines)%list
       /\ stdout (snd verbose) = (stdout w ++ dump ++ lines)%list
       /\ (dump = [] \/ exists x, dump = [x]).
Proof.
  intros Hc quiet verbose. unfold quiet, verbose.
  rewrite (run_check_run transport loads dumps classify endpoint
             (mkSession url ca seconds false (Some token)) token w eq_refl).
  rewrite (run_check_run transport loads dumps classify endpoint
             (mkSession url ca seconds true (Some token)) token w eq_refl).
  cbn [debug].
  change (query_request (mkSession url ca seconds true (Some token)) token
            "GET" endpoint None)
    with (query_request (mkSession url ca seconds false (Some token)) token
            "GET" endpoint None).
  change (destroy_request (mkSession url ca seconds true (Some token)) token)
    with (destroy_request (mkSession url ca seconds false (Some token)) token).
  set (q := query_request _ token "GET" endpoint None).
  set (d := destroy_request _ token).
  destruct (transport (requests w) q) as [err|s t].
  { split; [reflexivity|]. split; [reflexivity|].
    exists [], [connection_error_line err]. auto. }
  destruct (py_in s [400; 401; 403; 500; 503]).
  { split; [reflexivity|]. split; [reflexivity|].
    exists [], [api_error_line s t]. auto. }
  destruct (loads t) as [data|].
  2:{ split; [reflexivity|]. split; [reflexivity|].
      exists [], []. cbn. rewrite app_nil_r. auto. }
  cbn zeta. cbn [requests printed sent].
  destruct (transport (requests w ++ [q])%list d) as [err|s' t'].
  { split; [reflexivity|]. split; [reflexivity|].
    exists [dumps data], [connection_error_line err]. cbn.
    rewrite <- app_assoc. eauto. }
  destruct (py_in s' [200; 201; 204]).
  2:{ split; [reflexivity|]. split; [reflexivity|].
      exists [dumps data], [teardown_error_line s' t']. cbn.
      rewrite <- app_assoc. eauto. }
  destruct (Hc data) as [(c & rest & _ & E) | (e & _ & E)]; rewrite !E.
  - split; [reflexivity|]. split; [reflexivity|].
    exists [dumps data], [level c ++ " - " ++ rest]. cbn.
    rewrite <- app_assoc. eauto.
  - split; [reflexivity|]. split; [reflexivity|].
    exists [dumps data], []. cbn. rewrite !app_nil_r. eauto.
Qed.

(** ** Every run *)

Section Runs.

Variable transport : list Request -> Request -> Reply.
Variable loads_vms : string -> option (list Vm.t).
Variable loads_hosts : string -> option (list Host.t).
Variable loads_datastores : string -> option (list Datastore.t).
Variable dumps_vms : list Vm.t -> string.
Variable dumps_hosts : list Host.t -> string.
Variable dumps_datastores : list Datastore.t -> string.

Local Abbreviation run :=
  (main transport loads_vms loads_hosts loads_datastores
        dumps_vms dumps_hosts dumps_datastores).

(** The requests, the output and the end of a run from the initial
    world. *)
Lemma main_shape (args : Args) :
  let auth := auth_request args in
  let result := run args initial in
  exists dump lines,
    stdout (snd result) = (dump ++ lines)%list
    /\ (dump = [] \/ arg_debug args = true /\ exists x, dump = [x])
    /\ match transport [] auth with
       | ConnectionFailure _ =>
           requests (snd result) = [auth] /\ verdict (fst result) lines
       | Response status_code text =>
           if py_in status_code [200; 201] then
             match endpoint_of (arg_mode args) with
             | None =>
                 requests (snd result) = [auth]
                 /\ fst result = Ret tt /\ lines = []
             | Some endpoint =>
                 let session := opened args text in
                 let token := strip dquote text in
                 let q := query_request session token "GET" endpoint None in
                 let d := destroy_request session token in
                 (requests (snd result) = [auth; q]
                  \/ requests (snd result) = [auth; q; d])
                 /\ verdict (fst result) lines
             end
           else requests (snd result) = [auth] /\ verdict (fst result) lines
       end.
Proof.
  intros auth result. unfold result. rewrite main_run.
  cbn [requests initial]. fold auth.
  destruct (transport [] auth) as [err|s t].
  { exists [], [connection_error_line err].
    repeat split; auto; apply unknown_line. }
  destruct (py_in s [200; 201]).
  2:{ exists [], [auth_error_line s t].
      repeat split; auto; apply unknown_line. }
  cbn zeta. unfold endpoint_of.
  assert (T : authtoken (opened args t) = Some (strip dquote t))
    by reflexivity.
  destruct (String.eqb (arg_mode args) "vms").
  { destruct (run_check_shape transport loads_vms dumps_vms classify_vms
                "/api/vcenter/vm" (opened args t) (strip dquote t)
                (sent auth initial) reports_classify_vms T)
      as (dump & lines & R & S & D & V).
    exists dump, lines. repeat split; assumption. }
  destruct (String.eqb (arg_mode args) "hosts").
  { destruct (run_check_shape transport loads_hosts dumps_hosts classify_hosts
                "/api/vcenter/host" (opened args t) (strip dquote t)
                (sent auth initial) reports_classify_hosts T)
      as (dump & lines & R & S & D & V).
    exists dump, lines. repeat split; assumption. }
  destruct (String.eqb (arg_mode args) "datastores").
  { destruct (run_check_shape transport loads_datastores dumps_datastores
                classify_datastores "/api/vcenter/datastore" (opened args t)
                (strip dquote t) (sent auth initial)
                reports_classify_datastores T)
      as (dump & lines & R & S & D & V).
    exists dump, lines. repeat split; assumption. }
  exists [], []. repeat split; auto.
Qed.

End Runs.

Section Contract.

Variable transport : list Request -> Request -> Reply.
Variable loads_vms : string -> option (list Vm.t).
Variable loads_hosts : string -> option (list Host.t).
Variable loads_datastores : string -> option (list Datastore.t).
Variable dumps_vms : list Vm.t -> string.
Variable dumps_hosts : list Host.t -> string.
Variable dumps_datastores : list Datastore.t -> string.

Local Abbreviation run :=
  (main transport loads_vms loads_hosts loads_datastores
        dumps_vms dumps_hosts dumps_datastores).

(** X5. A run issues at most three requests, each at most once and in
    this order: the authentication request; then, only when the session
    was granted (status 200 or 201), the GET of the endpoint of the mode
    with the session token; then, only after that, the DELETE of the
    session with the same token. *)
Theorem session_lifecycle (args : Args) :
  let auth := auth_request args in
  let issued := requests (snd (run args initial)) in
  match transport [] auth with
  | ConnectionFailure _ => issued = [auth]
  | Response status_code text =>
      if py_in status_code [200; 201] then
        match endpoint_of (arg_mode args) with
        | None => issued = [auth]
        | Some endpoint =>
            let session := opened args text in
            let token := strip dquote text in
            let q := query_request session token "GET" endpoint None in
            let d := destroy_request session token in
            issued = [auth; q] \/ issued = [auth; q; d]
        end
      else issued = [auth]
  end.
Proof.
  intros auth issued.
  destruct (main_shape transport loads_vms loads_hosts loads_datastores
              dumps_vms dumps_hosts dumps_datastores args)
    as (dump & lines & _ & _ & H).
  fold auth in H. unfold issued.
  destruct (transport [] auth) as [err|s t]; [apply H|].
  destruct (py_in s [200; 201]); [|apply H].
  destruct (endpoint_of (arg_mode args)); apply H.
Qed.

(** X6. Every request of a run goes to a URL under the base URL, with the
    timeout and the CA bundle of the arguments; the user name and the
    password travel with the authentication request only, which is always
    the first request. *)
Theorem credentials_only_at_login (args : Args) :
  let auth := auth_request args in
  let issued := requests (snd (run args initial)) in
  hd_error issued = Some auth
  /\ req_auth auth = Some (arg_user args, arg_pw args)
  /\ forall r, In r issued ->
       req_timeout r = arg_timeout args
       /\ req_verify r = arg_cacert args
       /\ (exists path, req_url r = arg_baseurl args ++ path)
       /\ (r = auth \/ req_auth r = None).
Proof.
  intros auth issued.
  assert (A : req_timeout auth = arg_timeout args
              /\ req_verify auth = arg_cacert args
              /\ (exists path, req_url auth = arg_baseurl args ++ path)
              /\ (auth = auth \/ req_auth auth = None)).
  { repeat split; auto. now exists "/api/session". }
  destruct (main_shape transport loads_vms loads_hosts loads_datastores
              dumps_vms dumps_hosts dumps_datastores args)
    as (dump & lines & _ & _ & H).
  fold auth in H. fold issued in H.
  assert (C : issued = [auth]
              \/ exists text endpoint,
                   let session := opened args text in
                   let token := strip dquote text in
                   let q := query_request session token "GET" endpoint None in
                   let d := destroy_request session token in
                   issued = [auth; q] \/ issued = [auth; q; d]).
  { destruct (transport [] auth) as [err|s t]; [left; apply H|].
    destruct (py_in s [200; 201]); [|left; apply H].
    destruct (endpoint_of (arg_mode args)) as [ep|]; [|left; apply H].
    right. exists t, ep. apply H. }
  destruct C as [C | (text & ep & [C | C])]; rewrite C;
    (split; [reflexivity|]); (split; [reflexivity|]);
    intros r Hr; cbn [In] in Hr;
    repeat (destruct Hr as [<- | Hr]; [try exact A|]); try contradiction.
  - repeat split; auto. now exists ep.
  - repeat split; auto. now exists ep.
  - repeat split; auto. now exists "/api/session".
Qed.


(** X8. With and without the debug flag a run issues the same requests
    and ends in the same way; the flag adds at most one line, the dump of
    the listing, in front of what is printed without it. *)
Theorem debug_only_adds_the_dump (args : Args) :
  let quiet := run (with_debug false args) initial in
  let verbose := run (with_debug true args) initial in
  fst verbose = fst quiet
  /\ requests (snd verbose) = requests (snd quiet)
  /\ (stdout (snd verbose) = stdout (snd quiet)
      \/ exists dump, stdout (snd verbose) = dump :: stdout (snd quiet)).
Proof.
  intros quiet verbose. unfold quiet, verbose. rewrite !main_run.
  cbn [requests initial].
  change (auth_request (with_debug true args)) with (auth_request args).
  change (auth_request (with_debug false args)) with (auth_request args).
  destruct (transport [] (auth_request args)) as [err|s t]; [auto|].
  destruct (py_in s [200; 201]); [|auto].
  cbn zeta. cbn [arg_mode with_debug]. unfold opened.
  cbn [arg_baseurl arg_cacert arg_timeout arg_debug with_debug].
  assert (G : forall (J : Type) (loads : string -> option J)
                     (dumps : J -> string) (classify : J -> M unit)
                     (endpoint : string),
             (forall data, reports (classify data)) ->
             let quiet :=
               run_check transport loads dumps classify endpoint
                 (mkSession (arg_baseurl args) (arg_cacert args)
                            (arg_timeout args) false (Some (strip dquote t)))
                 (sent (auth_request args) initial) in
             let verbose :=
               run_check transport loads dumps classify endpoint
                 (mkSession (arg_baseurl args) (arg_cacert args)
                            (arg_timeout args) true (Some (strip dquote t)))
                 (sent (auth_request args) initial) in
             fst verbose = fst quiet
             /\ requests (snd verbose) = requests (snd quiet)
             /\ (stdout (snd verbose) = stdout (snd quiet)
                 \/ exists dump,
                      stdout (snd verbose) = dump :: stdout (snd quiet))).
  { intros J loads dumps classify endpoint Hc.
    destruct (run_check_debug transport loads dumps classify endpoint
                (arg_baseurl args) (arg_cacert args) (arg_timeout args)
                (strip dquote t) (sent (auth_request args) initial) Hc)
      as (O & R & dump & lines & S0 & S1 & D).
    cbn zeta. split; [exact O|]. split; [exact R|].
    rewrite S0, S1. cbn [stdout sent initial app].
    destruct D as [-> | (x & ->)]; [left; reflexivity | right; now exists x]. }
  destruct (String.eqb (arg_mode args) "vms");
    [apply G, reports_classify_vms|].
  destruct (String.eqb (arg_mode args) "hosts");
    [apply G, reports_classify_hosts|].
  destruct (String.eqb (arg_mode args) "datastores");
    [apply G, reports_classify_datastores|].
  auto.
Qed.

End Contract.

Section Failures.

Variable transport : list Request -> Request -> Reply.
Variable loads_vms : string -> option (list Vm.t).
Variable loads_hosts : string -> option (list Host.t).
Variable loads_datastores : string -> option (list Datastore.t).
Variable dumps_vms : list Vm.t -> string.
Variable dumps_hosts : list Host.t -> string.
Variable dumps_datastores : list Datastore.t -> string.

Local Abbreviation run :=
  (main transport loads_vms loads_hosts loads_datastores
        dumps_vms dumps_hosts dumps_datastores).

Local Abbreviation dump_of :=
  (fetched_dump loads_vms loads_hosts loads_datastores
                dumps_vms dumps_hosts dumps_datastores).

(** A run whose session was granted, for a mode with an endpoint, is the
    check of that mode, whose decoder and dump are those of
    [fetched_dump]. *)
Lemma granted_run (args : Args) (status_code : Z) (text endpoint : string) :
  transport [] (auth_request args) = Response status_code text ->
  In status_code [200; 201] ->
  endpoint_of (arg_mode args) = Some endpoint ->
  exists (J : Type) (loads : string -> option J) (dumps : J -> string)
         (classify : J -> M unit),
    run args initial
    = run_check transport loads dumps classify endpoint (opened args text)
                (sent (auth_request args) initial)
    /\ forall body, dump_of (arg_mode args) body = option_map dumps (loads body).
Proof.
  intros Hr Hs He. unfold fetched_dump. rewrite main_run.
  cbn [requests initial]. rewrite Hr. apply py_in_In in Hs. rewrite Hs.
  cbn zeta. unfold endpoint_of in He.
  destruct (String.eqb (arg_mode args) "vms").
  { injection He as <-. exists _, loads_vms, dumps_vms, classify_vms. auto. }
  destruct (String.eqb (arg_mode args) "hosts").
  { injection He as <-. exists _, loads_hosts, dumps_hosts, classify_hosts.
    auto. }
  destruct (String.eqb (arg_mode args) "datastores"); [|discriminate].
  injection He as <-.
  exists _, loads_datastores, dumps_datastores, classify_datastores. auto.
Qed.

(** X9. When the fetch fails, by a connection-level failure or by a
    status among 400, 401, 403, 500, 503, the run ends with exit code 3
    and one line, and the session that was opened is not destroyed: no
    DELETE request follows. *)
Theorem failed_fetch_leaves_session
    (args : Args) (status_code : Z) (text endpoint : string) :
  transport [] (auth_request args) = Response status_code text ->
  In status_code [200; 201] ->
  endpoint_of (arg_mode args) = Some endpoint ->
  let auth := auth_request args in
  let q := query_request (opened args text) (strip dquote text)
                         "GET" endpoint None in
  match transport [auth] q with
  | ConnectionFailure err =>
      run args initial
      = (Exit 3, mkWorld [auth; q] ["UNKNOWN - Connection error: " ++ err])
  | Response status_code' text' =>
      In status_code' [400; 401; 403; 500; 503] ->
      run args initial
      = (Exit 3,
         mkWorld [auth; q]
           ["UNKNOWN - Error during API request to /api/vcenter/vm : "
            ++ "HTTP status " ++ str_of_int status_code' ++ " : " ++ text'])
  end.
Proof.
  intros Hr Hs He auth q.
  destruct (granted_run args status_code text endpoint Hr Hs He)
    as (J & loads & dumps & classify & E & _).
  rewrite E.
  rewrite (run_check_run transport loads dumps classify endpoint
             (opened args text) (strip dquote text) _ eq_refl).
  cbn [requests sent initial app]. fold auth. fold q.
  destruct (transport [auth] q) as [err|s' t']; [reflexivity|].
  intros H. apply py_in_In in H. rewrite H. reflexivity.
Qed.

(** X10. When the fetch is answered with a status outside 400, 401, 403,
    500, 503 but the body does not decode, the run ends with the uncaught
    exception of the decoder: nothing is printed, the session is not
    destroyed and the status of the process is that of a traceback. *)
Theorem undecodable_body_is_uncaught
    (args : Args) (status_code : Z) (text endpoint : string)
    (status_code' : Z) (text' : string) :
  transport [] (auth_request args) = Response status_code text ->
  In status_code [200; 201] ->
  endpoint_of (arg_mode args) = Some endpoint ->
  let auth := auth_request args in
  let q := query_request (opened args text) (strip dquote text)
                         "GET" endpoint None in
  transport [auth] q = Response status_code' text' ->
  ~ In status_code' [400; 401; 403; 500; 503] ->
  dump_of (arg_mode args) text' = None ->
  run args initial = (Raise JSONDecodeError, mkWorld [auth; q] [])
  /\ exit_status (fst (run args initial)) = 1.
Proof.
  intros Hr Hs He auth q Hq Hs' Hd.
  destruct (granted_run args status_code text endpoint Hr Hs He)
    as (J & loads & dumps & classify & E & D).
  rewrite E.
  rewrite (run_check_run transport loads dumps classify endpoint
             (opened args text) (strip dquote text) _ eq_refl).
  cbn [requests sent initial app]. fold auth. fold q. rewrite Hq.
  destruct (py_in status_code' [400; 401; 403; 500; 503]) eqn:P.
  { apply py_in_In in P. contradiction. }
  rewrite D in Hd. destruct (loads text'); [discriminate|].
  split; reflexivity.
Qed.

(** X11. When the listing was fetched and decoded but the teardown fails,
    by a connection-level failure or by a status other than 200, 201,
    204, the run ends with exit code 3 and the line of that failure: the
    listing is not classified and no result is printed (in debug mode the
    dump of the listing has been printed before). *)
Theorem failed_teardown_hides_result
    (args : Args) (status_code : Z) (text endpoint : string)
    (status_code' : Z) (text' dump : string) :
  transport [] (auth_request args) = Response status_code text ->
  In status_code [200; 201] ->
  endpoint_of (arg_mode args) = Some endpoint ->
  let auth := auth_request args in
  let q := query_request (opened args text) (strip dquote text)
                         "GET" endpoint None in
  let d := destroy_request (opened args text) (strip dquote text) in
  let shown := if arg_debug args then [dump] else [] in
  transport [auth] q = Response status_code' text' ->
  ~ In status_code' [400; 401; 403; 500; 503] ->
  dump_of (arg_mode args) text' = Some dump ->
  match transport [auth; q] d with
  | ConnectionFailure err =>
      run args initial
      = (Exit 3,
         mkWorld [auth; q; d]
                 (shown
                  ++ [("UNKNOWN - Connection error: " ++ err)%string])%list)
  | Response status_code'' text'' =>
      ~ In status_code'' [200; 201; 204] ->
      run args initial
      = (Exit 3,
         mkWorld [auth; q; d]
           (shown
            ++ [("UNKNOWN - Error during token invalidation request: "
                 ++ "HTTP status " ++ str_of_int status_code'' ++ " : "
                 ++ text'')%string])%list)
  end.
Proof.
  intros Hr Hs He auth q d shown Hq Hs' Hd.
  destruct (granted_run args status_code text endpoint Hr Hs He)
    as (J & loads & dumps & classify & E & D).
  rewrite E.
  rewrite (run_check_run transport loads dumps classify endpoint
             (opened args text) (strip dquote text) _ eq_refl).
  cbn [requests sent initial app]. fold auth. fold q. fold d. rewrite Hq.
  destruct (py_in status_code' [400; 401; 403; 500; 503]) eqn:P.
  { apply py_in_In in P. contradiction. }
  rewrite D in Hd. destruct (loads text') as [data|]; [|discriminate].
  injection Hd as Hd. cbn zeta. cbn [debug opened]. unfold shown.
  destruct (arg_debug args); cbn [requests stdout printed sent initial app];
    rewrite ?Hd;
    (destruct (transport [auth; q] d) as [err|s'' t'']; [reflexivity|];
     intros N; destruct (py_in s'' [200; 201; 204]) eqn:P';
     [apply py_in_In in P'; contradiction | reflexivity]).
Qed.

End Failures.

Lemma failed_fetch_leaves_session_witness :
  main (scripted granted (Response 503 "down") (Response 204 ""))
       loads_empty loads_empty loads_empty
       (fun _ => "") (fun _ => "") (fun _ => "") sample_args initial
  = (Exit 3,
     mkWorld [auth_request sample_args;
              query_request sample_session "token" "GET" "/api/vcenter/host"
                            None]
       ["UNKNOWN - Error during API request to /api/vcenter/vm : "
        ++ "HTTP status 503 : down"]).
Proof.
  refine (failed_fetch_leaves_session
            (scripted granted (Response 503 "down") (Response 204 ""))
            loads_empty loads_empty loads_empty
            (fun _ => "") (fun _ => "") (fun _ => "") sample_args
            200 (quoted "token") "/api/vcenter/host"
            eq_refl (or_introl eq_refl) eq_refl _).
  vm_compute. tauto.
Defined.

Lemma undecodable_body_is_uncaught_witness :
  main (scripted granted (Response 404 "<html>") (Response 204 ""))
       loads_empty loads_empty loads_empty
       (fun _ => "") (fun _ => "") (fun _ => "") sample_args initial
  = (Raise JSONDecodeError,
     mkWorld [auth_request sample_args;
              query_request sample_session "token" "GET" "/api/vcenter/host"
                            None]
             []).
Proof.
  refine (proj1 (undecodable_body_is_uncaught
                   (scripted granted (Response 404 "<html>") (Response 204 ""))
                   loads_empty loads_empty loads_empty
                   (fun _ => "") (fun _ => "") (fun _ => "") sample_args
                   200 (quoted "token") "/api/vcenter/host" 404 "<html>"
                   eq_refl (or_introl eq_refl) eq_refl eq_refl _ eq_refl)).
  vm_compute. intuition discriminate.
Defined.

Lemma failed_teardown_hides_result_witness :
  main (scripted granted (Response 200 "[]") (Response 500 "busy"))
       loads_empty loads_empty loads_empty
       (fun _ => "") (fun _ => "") (fun _ => "") sample_args initial
  = (Exit 3,
     mkWorld [auth_request sample_args;
              query_request sample_session "token" "GET" "/api/vcenter/host"
                            None;
              destroy_request sample_session "token"]
       ["UNKNOWN - Error during token invalidation request: "
        ++ "HTTP status 500 : busy"]).
Proof.
  refine (failed_teardown_hides_result
            (scripted granted (Response 200 "[]") (Response 500 "busy"))
            loads_empty loads_empty loads_empty
            (fun _ => "") (fun _ => "") (fun _ => "") sample_args
            200 (quoted "token") "/api/vcenter/host" 200 "[]" ""
            eq_refl (or_introl eq_refl) eq_refl eq_refl _ eq_refl _).
  - vm_compute. intuition discriminate.
  - vm_compute. intuition discriminate.
Defined.

(** ** The counters of the VM classifier *)

Lemma count_power_nonneg (s : string) (data : list Vm.t) :
  0 <= count_power s data.
Proof. unfold count_power, len. lia. Qed.

(** X12. The three counters of the VM classifier are not negative and,
    with the number of items whose power state is none of POWERED_ON,
    POWERED_OFF and SUSPENDED, add up to the total: such an item is
    counted in the total only, and no item is counted twice. *)
Theorem vms_counters_partition (data : list Vm.t) :
  let states := vms_states data in
  VmStates.total states = len data
  /\ 0 <= VmStates.on states
  /\ 0 <= VmStates.off states
  /\ 0 <= VmStates.suspended states
  /\ VmStates.on states + VmStates.off states + VmStates.suspended states
     + len (filter (fun element => negb (counted_power element)) data)
     = VmStates.total states.
Proof.
  cbn zeta. unfold vms_states. rewrite vms_loop_counts.
  cbn [VmStates.total VmStates.on VmStates.off VmStates.suspended].
  repeat split; try (rewrite Z.add_0_l; apply count_power_nonneg).
  rewrite !Z.add_0_l.
  induction data as [|element data IH]; [reflexivity|].
  rewrite !count_power_cons, len_cons. cbn [filter]. unfold counted_power at 1.
  destruct (String.eqb_spec (Vm.power_state element) "POWERED_ON") as [E|_].
  { rewrite E. cbn. lia. }
  destruct (String.eqb_spec (Vm.power_state element) "POWERED_OFF") as [E|_].
  { rewrite E. cbn. lia. }
  destruct (String.eqb (Vm.power_state element) "SUSPENDED");
    cbn [orb negb]; rewrite ?len_cons; lia.
Qed.

(** ** The records of the host classifier *)

(** What one turn of the loop does to the connection record and to the
    four strings the loop does not touch. *)
Lemma hosts_step_connection (v : HostsVars) (element : Host.t) :
  let s := Host.connection_state element in
  let c := connection_state v in
  let c' := connection_state (hosts_step v element) in
  ConnectionState.connected c'
  = ConnectionState.connected c + flag (String.eqb s "CONNECTED")
  /\ ConnectionState.disconnected c'
     = ConnectionState.disconnected c + flag (String.eqb s "DISCONNECTED")
  /\ ConnectionState.hosts_discon_list c'
     = (ConnectionState.hosts_discon_list c
        ++ named (String.eqb s "DISCONNECTED") element)%list
  /\ ConnectionState.hosts_discon c' = ConnectionState.hosts_discon c
  /\ ConnectionState.hosts_notresp c' = ConnectionState.hosts_notresp c
  /\ PowerState.hosts_off (power_state (hosts_step v element))
     = PowerState.hosts_off (power_state v)
  /\ PowerState.hosts_standby (power_state (hosts_step v element))
     = PowerState.hosts_standby (power_state v).
Proof.
  cbn zeta. unfold hosts_step.
  destruct (connection_state v) as [a b n ld ln sd sn] eqn:C.
  destruct (String.eqb_spec (Host.connection_state element) "CONNECTED")
    as [E|_].
  { rewrite E. cbn. rewrite power_step_fields. cbn.
    rewrite Z.add_0_r, app_nil_r. repeat split. }
  destruct (String.eqb_spec (Host.connection_state element) "DISCONNECTED")
    as [E|_].
  { rewrite ?E. cbn. rewrite power_step_fields. cbn.
    rewrite Z.add_0_r. repeat split. }
  destruct (String.eqb (Host.connection_state element) "NOT_RESPONDING");
    cbn; rewrite ?C, ?power_step_fields; cbn;
    rewrite !Z.add_0_r, app_nil_r; repeat split.
Qed.

Lemma connection_cons (s : string) (element : Host.t) (data : list Host.t) :
  connection s (element :: data)
  = if String.eqb (Host.connection_state element) s
    then element :: connection s data else connection s data.
Proof. reflexivity. Qed.

Lemma hosts_loop_connection (data : list Host.t) (v : HostsVars) :
  let r := fold_left hosts_step data v in
  let c := connection_state v in
  ConnectionState.connected (connection_state r)
  = ConnectionState.connected c + len (connection "CONNECTED" data)
  /\ ConnectionState.disconnected (connection_state r)
     = ConnectionState.disconnected c + len (connection "DISCONNECTED" data)
  /\ ConnectionState.hosts_discon_list (connection_state r)
     = (ConnectionState.hosts_discon_list c
        ++ map Host.name (connection "DISCONNECTED" data))%list
  /\ ConnectionState.hosts_discon (connection_state r)
     = ConnectionState.hosts_discon c
  /\ ConnectionState.hosts_notresp (connection_state r)
     = ConnectionState.hosts_notresp c
  /\ PowerState.hosts_off (power_state r) = PowerState.hosts_off (power_state v)
  /\ PowerState.hosts_standby (power_state r)
     = PowerState.hosts_standby (power_state v).
Proof.
  revert v. induction data as [|element data IH]; intros v.
  - cbn. rewrite !Z.add_0_r, app_nil_r. repeat split.
  - cbn zeta. simpl fold_left.
    destruct (IH (hosts_step v element)) as (I1 & I2 & I3 & I4 & I5 & I6 & I7).
    destruct (hosts_step_connection v element)
      as (S1 & S2 & S3 & S4 & S5 & S6 & S7).
    rewrite I1, I2, I3, I4, I5, I6, I7, S1, S2, S3, S4, S5, S6, S7.
    rewrite !connection_cons.
    destruct (String.eqb (Host.connection_state element) "CONNECTED");
      destruct (String.eqb (Host.connection_state element) "DISCONNECTED");
      cbn [flag named map]; rewrite ?len_cons, <- ?app_assoc, ?app_nil_r;
      repeat split; try reflexivity; lia.
Qed.

(** The variables after the loop, in closed form. *)
Lemma hosts_loop_closed (data : list Host.t) :
  hosts_loop data
  = mkHostsVars
      (PowerState.mk
         (len (powered "POWERED_ON" data)) (len (powered "POWERED_OFF" data))
         (len (powered "STANDBY" data))
         (map Host.name (powered "POWERED_OFF" data))
         (map Host.name (powered "STANDBY" data)) "" "")
      (ConnectionState.mk
         (len (connection "CONNECTED" data))
         (len (connection "DISCONNECTED" data))
         (len (connection "NOT_RESPONDING" data))
         (map Host.name (connection "DISCONNECTED" data))
         (map Host.name (connection "NOT_RESPONDING" data)) "" "")
      (if existsb not_responding data then 1 else 0).
Proof.
  destruct (hosts_loop_from data hosts_init (or_introl eq_refl))
    as (F1 & F2 & F3 & F4 & F5 & F6 & F7 & F8).
  destruct (hosts_loop_connection data hosts_init)
    as (C1 & C2 & C3 & C4 & C5 & C6 & C7).
  fold (hosts_loop data) in *.
  cbn in F1, F2, F3, F4, F5, F6, F7, F8, C1, C2, C3, C4, C5, C6, C7.
  destruct (hosts_loop data) as [[] [] st].
  cbn in F1, F2, F3, F4, F5, F6, F7, F8, C1, C2, C3, C4, C5, C6, C7.
  subst. reflexivity.
Qed.

Lemma len_map {A B : Type} (f : A -> B) (l : list A) : len (map f l) = len l.
Proof. unfold len. now rewrite length_map. Qed.

Lemma len_nonneg {A : Type} (l : list A) : 0 <= len l.
Proof. unfold len. lia. Qed.


Lemma impacted_names (l : list string) : impacted l "" = names l.
Proof.
  unfold impacted, names. destruct l as [|x l]; [reflexivity|].
  rewrite len_cons. pose proof (len_nonneg l) as H.
  destruct (Z.ltb_spec 0 (len l + 1)); [reflexivity | lia].
Qed.

(** X14. For every listing the host classifier prints one line: the word
    of the severity, the number of hosts, the three power counts and the
    three connection counts, each of the four name lists between
    parentheses when it is not empty and left out when it is, and six
    perfdata tokens bounded by 0 and the number of hosts. *)
Theorem classify_hosts_line (data : list Host.t) (w : World) :
  let total := str_of_int (len data) in
  let n_on := str_of_int (len (powered "POWERED_ON" data)) in
  let off := map Host.name (powered "POWERED_OFF" data) in
  let standby := map Host.name (powered "STANDBY" data) in
  let n_connected := str_of_int (len (connection "CONNECTED" data)) in
  let disconnected := map Host.name (connection "DISCONNECTED" data) in
  let notresponding := map Host.name (connection "NOT_RESPONDING" data) in
  let severity := if existsb not_responding data then 1 else 0 in
  classify_hosts data w
  = (Exit severity,
     printed
       (level severity ++ " - "
        ++ (" " ++ total ++ " Hosts total - "
            ++ "Power On: " ++ n_on
            ++ ", Off: " ++ str_of_int (len off) ++ names off
            ++ ", Standby: " ++ str_of_int (len standby) ++ names standby
            ++ " - Connected: " ++ n_connected
            ++ ", Disconnected: " ++ str_of_int (len disconnected)
            ++ names disconnected
            ++ ", Not responding: " ++ str_of_int (len notresponding)
            ++ names notresponding)
        ++ " | "
        ++ join " "
             [perf_token "power_on" n_on "0" total;
              perf_token "power_off" (str_of_int (len off)) "0" total;
              perf_token "power_standby" (str_of_int (len standby)) "0" total;
              perf_token "conn_connected" n_connected "0" total;
              perf_token "conn_disconnected"
                         (str_of_int (len disconnected)) "0" total;
              perf_token "conn_notresp"
                         (str_of_int (len notresponding)) "0" total]) w).
Proof.
  cbn zeta. unfold classify_hosts. rewrite hosts_loop_closed.
  unfold hosts_strings. cbn [power_state connection_state state].
  rewrite !impacted_names, !len_map.
  unfold hosts_output, hosts_perfdata, join, perf_token, String.concat.
  cbn [power_state connection_state PowerState.on PowerState.off
       PowerState.standby PowerState.hosts_off PowerState.hosts_standby
       ConnectionState.connected ConnectionState.disconnected
       ConnectionState.notresponding ConnectionState.hosts_discon
       ConnectionState.hosts_notresp].
  generalize (str_of_int (len data))
    (str_of_int (len (powered "POWERED_ON" data)))
    (str_of_int (len (powered "POWERED_OFF" data)))
    (str_of_int (len (powered "STANDBY" data)))
    (str_of_int (len (connection "CONNECTED" data)))
    (str_of_int (len (connection "DISCONNECTED" data)))
    (str_of_int (len (connection "NOT_RESPONDING" data)))
    (names (map Host.name (powered "POWERED_OFF" data)))
    (names (map Host.name (powered "STANDBY" data)))
    (names (map Host.name (connection "DISCONNECTED" data)))
    (names (map Host.name (connection "NOT_RESPONDING" data))).
  intros s0 s1 s2 s3 s4 s5 s6 t2 t3 t5 t6.
  assert (E : forall c lvl a b a' b',
             (c = 0 /\ lvl = "OK" \/ c = 1 /\ lvl = "WARNING") ->
             a ++ b = a' ++ b' ->
             exit_plugin c a b w
             = (Exit c, printed (lvl ++ " - " ++ a' ++ b') w)).
  { intros c lvl a b a' b' Hc Hab.
    rewrite (exit_plugin_known c lvl a b w Hc). now rewrite Hab. }
  destruct (existsb not_responding data).
  - apply (E 1 "WARNING"); [right; split; reflexivity|].
    cbn [String.append]. repeat (rewrite !append_assoc; cbn [String.append]).
    reflexivity.
  - apply (E 0 "OK"); [left; split; reflexivity|].
    cbn [String.append]. repeat (rewrite !append_assoc; cbn [String.append]).
    reflexivity.
Qed.

(** ** A full and an empty datastore *)

(** A positive integer divided by itself is the float 1.0. *)
Lemma SFdiv_same (p : positive) :
  SFdiv prec emax (S754_finite false p 0) (S754_finite false p 0)
  = literal 1 1.
Proof.
  assert (C : SFdiv_core_binary prec emax (Zpos p) 0 (Zpos p) 0
              = (2 ^ 53, -53, loc_Exact)).
  { unfold SFdiv_core_binary.
    replace (Zdigits2 (Zpos p) + 0 - (Zdigits2 (Zpos p) + 0)) with 0 by lia.
    change (Z.min (fexp prec emax 0) (0 - 0)) with (-53).
    change (0 - 0 - -53) with 53.
    rewrite Z.shiftl_mul_pow2 by lia.
    set (K := 2 ^ 53).
    pose proof (Z_div_mod (Zpos p * K) (Zpos p) ltac:(lia)) as D.
    destruct (Z.div_eucl (Zpos p * K) (Zpos p)) as [q r].
    destruct D as [D R].
    assert (Q : q = K) by nia.
    assert (Z0' : r = 0) by nia.
    subst q r. unfold new_location, new_location_even, new_location_odd.
    destruct (Z.even (Zpos p)); reflexivity. }
  cbn [SFdiv]. rewrite C. vm_compute. reflexivity.
Qed.

(** X15. For every positive capacity, a datastore with no free space is
    reported at 100.0 percent and raises the severity, and a datastore
    whose free space is its whole capacity is reported at 0.0 percent and
    does not. *)
Theorem full_and_empty_datastore (name : string) (capacity : Z) :
  0 < capacity ->
  let full := Datastore.mk name capacity 0 in
  let empty := Datastore.mk name capacity capacity in
  used_pct full = Ret (literal 100 1)
  /\ pct_text full = "100.0"
  /\ breaches full = true
  /\ used_pct empty = Ret (S754_zero false)
  /\ pct_text empty = "0.0"
  /\ breaches empty = false.
Proof.
  intros H full empty.
  assert (F : used_pct full = Ret (literal 100 1)).
  { unfold full, used_pct, int_truediv. cbn [Datastore.capacity Datastore.free_space].
    rewrite Z.sub_0_r. destruct capacity as [|p|p]; try lia.
    cbn [Z.eqb operand]. rewrite SFdiv_same. vm_compute. reflexivity. }
  assert (E : used_pct empty = Ret (S754_zero false)).
  { unfold empty, used_pct, int_truediv. cbn [Datastore.capacity Datastore.free_space].
    rewrite Z.sub_diag. destruct capacity as [|p|p]; try lia. reflexivity. }
  unfold pct_text, breaches. rewrite F, E.
  repeat split; vm_compute; reflexivity.
Qed.

Lemma full_and_empty_datastore_witness :
  classify_datastores [Datastore.mk "full" 4096 0; Datastore.mk "empty" 7 7]
                      initial
  = (Exit 1,
     mkWorld []
       ["WARNING - Total datastores: 2, full: 100.0%"
        ++ " | 'full'=100.0%;;;0;100 'empty'=0.0%;;;0;100 "]).
Proof.
  pose proof (full_and_empty_datastore "full" 4096 eq_refl) as F.
  pose proof (full_and_empty_datastore "empty" 7 eq_refl) as E.
  cbn zeta in F, E.
  destruct F as (F & _). destruct E as (_ & _ & _ & E & _).
  unfold classify_datastores, datastores_loop, datastores_step, bind, lift.
  rewrite F, E. vm_compute. reflexivity.
Defined.

(** ** A run that reaches the classification *)

Section Success.

Variable transport : list Request -> Request -> Reply.
Variable loads_vms : string -> option (list Vm.t).
Variable loads_hosts : string -> option (list Host.t).
Variable loads_datastores : string -> option (list Datastore.t).
Variable dumps_vms : list Vm.t -> string.
Variable dumps_hosts : list Host.t -> string.
Variable dumps_datastores : list Datastore.t -> string.

Local Abbreviation run :=
  (main transport loads_vms loads_hosts loads_datastores
        dumps_vms dumps_hosts dumps_datastores).

(** X16. When the session is granted, the fetch is answered with a status
    outside 400, 401, 403, 500, 503 and a body that decodes, and the
    teardown is accepted, the run is the classification of the decoded
    listing: it starts after exactly the three requests, with nothing
    printed but the dump of debug mode, and the session is already
    destroyed when the result is computed. *)
Theorem granted_run_classifies
    (args : Args) (status_code : Z) (text endpoint : string)
    (status_code' : Z) (text' : string) (status_code'' : Z) (text'' : string) :
  transport [] (auth_request args) = Response status_code text ->
  In status_code [200; 201] ->
  endpoint_of (arg_mode args) = Some endpoint ->
  let auth := auth_request args in
  let q := query_request (opened args text) (strip dquote text)
                         "GET" endpoint None in
  let d := destroy_request (opened args text) (strip dquote text) in
  let after (dump : string) :=
    mkWorld [auth; q; d] (if arg_debug args then [dump] else []) in
  transport [auth] q = Response status_code' text' ->
  ~ In status_code' [400; 401; 403; 500; 503] ->
  transport [auth; q] d = Response status_code'' text'' ->
  In status_code'' [200; 201; 204] ->
  (arg_mode args = "vms" ->
   forall data, loads_vms text' = Some data ->
     run args initial = classify_vms data (after (dumps_vms data)))
  /\ (arg_mode args = "hosts" ->
      forall data, loads_hosts text' = Some data ->
        run args initial = classify_hosts data (after (dumps_hosts data)))
  /\ (arg_mode args = "datastores" ->
      forall data, loads_datastores text' = Some data ->
        run args initial
        = classify_datastores data (after (dumps_datastores data))).
Proof.
  intros Hr Hs He auth q d after Hq Hs' Hd Hs''.
  apply py_in_In in Hs, Hs''.
  assert (P : py_in status_code' [400; 401; 403; 500; 503] = false).
  { destruct (py_in status_code' [400; 401; 403; 500; 503]) eqn:P;
      [apply py_in_In in P; contradiction | reflexivity]. }
  assert (G : forall (J : Type) (loads : string -> option J)
                     (dumps : J -> string) (classify : J -> M unit) data,
             loads text' = Some data ->
             run_check transport loads dumps classify endpoint
                       (opened args text) (sent auth initial)
             = classify data (after (dumps data))).
  { intros J loads dumps classify data L.
    rewrite (run_check_run transport loads dumps classify endpoint
               (opened args text) (strip dquote text) _ eq_refl).
    cbn [requests sent initial app]. fold auth. fold q. fold d.
    rewrite Hq, P, L. cbn zeta. cbn [debug opened]. unfold after.
    destruct (arg_debug args); cbn [requests stdout printed sent initial app];
      rewrite Hd, Hs''; reflexivity. }
  rewrite main_run. cbn [requests initial].
  rewrite Hr, Hs. fold auth. cbn zeta. unfold endpoint_of in He.
  repeat split; intros M data L; rewrite M in He |- *;
    cbn in He; injection He as <-; cbn [String.eqb Ascii.eqb Bool.eqb];
    now apply G.
Qed.

End Success.

Lemma granted_run_classifies_witness :
  main healthy loads_empty loads_empty loads_empty
       (fun _ => "") (fun _ => "") (fun _ => "") sample_args initial
  = classify_hosts []
      (mkWorld [auth_request sample_args;
                query_request sample_session "token" "GET"
                              "/api/vcenter/host" None;
                destroy_request sample_session "token"] []).
Proof.
  refine (proj1 (proj2 (granted_run_classifies healthy
            loads_empty loads_empty loads_empty
            (fun _ => "") (fun _ => "") (fun _ => "") sample_args
            200 (quoted "token") "/api/vcenter/host" 200 "[]" 204 ""
            eq_refl (or_introl eq_refl) eq_refl eq_refl _ eq_refl _))
            eq_refl [] eq_refl).
  - vm_compute. intuition discriminate.
  - vm_compute. tauto.
Defined.
